(** * Gammapy documentation sources: how-to page and tutorial notebooks

    The three source files are documentation: a reStructuredText page of
    how-to entries and Jupyter notebooks whose code cells call the gammapy
    library.  The development embeds their text as data (pages as lines,
    notebooks as cells of lines), reads the Python samples with a small
    lexer and a statement splitter, follows where every name of a sample
    comes from (an import, a builtin, an earlier assignment), and states the
    properties of the sources over that reading.  The library operations the
    notebooks document in prose ([SafeMaskMaker.run], [Dataset.stat_sum],
    [Models.select]) are modelled in the last part. *)

From Stdlib Require Import String Ascii List Bool Arith Lia.
From Stdlib Require Import Reals Lra.
Import ListNotations.
Local Open Scope list_scope.
Local Open Scope string_scope.

(** ** The shape of the sources *)

(** The double quote character, for the lines that hold one. *)
Definition dq : string := String (ascii_of_nat 34) EmptyString.

(** An empty line. *)
Definition blank : string := EmptyString.

(** The [cell_type] field of a notebook cell. *)
Inductive cell_kind : Type := markdown | code.

(** A notebook cell: its [cell_type] and its [source], split at line ends. *)
Record cell : Type := { cell_type : cell_kind; source : list string }.

Definition md (src : list string) : cell :=
  {| cell_type := markdown; source := src |}.
Definition py (src : list string) : cell :=
  {| cell_type := code; source := src |}.

(** A document is a reStructuredText page or a notebook. *)
Inductive document : Type :=
| Rst (lines : list string)
| Notebook (cells : list cell).

(** A source file holds one document, or several one after the other. *)
Record src_file : Type := { path : string; documents : list document }.

(** ** The text of the sources *)

(** [docs/userguide/howto.rst], line by line. *)
Definition howto_rst : list string :=
  [ ".. include:: ../references.txt";
    blank;
    ".. _howto:";
    blank;
    "How To";
    "======";
    blank;
    "This page contains short " ++ dq ++ "how to" ++ dq ++ " or " ++ dq ++ "frequently asked question" ++ dq ++ " entries for";
    "Gammapy. Each entry is for a very specific task, with a short answer, and links";
    "to examples and documentation.";
    blank;
    "If you're new to Gammapy, please read the :ref:`userguide` and have a look at the";
    "list of :ref:`tutorials`. The information below is in addition to those pages,";
    "it's not a complete list of how to do everything in Gammapy.";
    blank;
    blank;
    "Please give feedback and suggest additions to this page!";
    blank;
    blank;
    ".. accordion-header:: ";
    "    :id: collapseOne";
    "    :title: Spell and pronounce Gammapy";
    blank;
    "The recommended spelling is " ++ dq ++ "Gammapy" ++ dq ++ " as proper name. The recommended";
    "pronunciation is [ɡæməpaɪ] where the syllable " ++ dq ++ "py" ++ dq ++ " is pronounced like";
    "the english word " ++ dq ++ "pie" ++ dq ++ ". You can listen to it `here <http://ipa-reader.xyz/?text=ˈ%C9%A1æməpaɪ&voice=Amy>`__.";
    blank;
    ".. accordion-footer::";
    blank;
    ".. accordion-header:: ";
    "    :id: collapseTwo";
    "    :title: Access IACT DL3 data";
    "    :link: ../tutorials/data/hess.html#DL3-DR1";
    blank;
    "To access IACT data in the DL3 format, use the `~gammapy.data.DataStore`. It allows";
    "easy access to observations stored in the DL3 data library. ";
    "It is also internally used by the high level interface `~gammapy.analysis.Analysis`.";
    blank;
    ".. accordion-footer::";
    blank;
    ".. accordion-header:: ";
    "    :id: collapseThree";
    "    :title: Select observations";
    "    :link: ../tutorials/starting/analysis_2.html#Defining-the-datastore-and-selecting-observations";
    blank;
    "The `~gammapy.data.DataStore` provides access to a summary table of all observations available.";
    "It can be used to select observations with various criterion. You can for instance apply a cone search";
    "or also select observations based on other information available using the `~gammapy.data.ObservationTable.select_observations` method.";
    blank;
    ".. accordion-footer::";
    blank;
    ".. accordion-header:: ";
    "    :id: collapseFour";
    "    :title: Make an on-axis equivalent livetime map";
    "    :link: ../tutorials/data/hess.html#On-axis-equivalent-livetime";
    blank;
    "The `~gammapy.data.DataStore` provides access to a summary table of all observations available.";
    "It can be used to select observations with various criterion. You can for instance apply a cone search";
    "or also select observations based on other information available using the `~gammapy.data.ObservationTable.select_observations` method.";
    blank;
    ".. accordion-footer::";
    blank;
    ".. accordion-header:: ";
    "    :id: collapseFive";
    "    :title: Check IRFs";
    "    :link: ../tutorials/data/cta.html#IRFs";
    blank;
    "Gammapy offers a number of methods to explore the content of the various IRFs";
    "contained in an observation. This is usually done thanks to their ``peek()``";
    "methods. ";
    blank;
    ".. accordion-footer::";
    blank;
    ".. accordion-header:: ";
    "    :id: collapseSix";
    "    :title: Model 2D images";
    "    :link: ../tutorials/index.html#d-image";
    blank;
    "Gammapy treats 2D maps as 3D cubes with one bin in energy. Sometimes, you might want to use previously ";
    "obtained images lacking an energy axis (eg: reduced using traditional IACT tools) for modeling and fitting ";
    "inside Gammapy. In this case, it is necessary to attach an `energy` axis on as it is showm in the tutorials.";
    blank;
    ".. accordion-footer::";
    blank;
    ".. accordion-header:: ";
    "    :id: collapseSeven";
    "    :title: Extract 1D spectra";
    "    :link: ../tutorials/analysis/1D/spectral_analysis.html";
    blank;
    "The `~gammapy.analysis.Analysis` class can perform spectral extraction. The";
    "`~gammapy.analysis.AnalysisConfig` must be defined to produce '1d' datasets.";
    "Alternatively, you can follow the spectral analysis tutorial.";
    blank;
    ".. accordion-footer::";
    blank;
    blank;
    ".. accordion-header:: ";
    "    :id: collapseEight";
    "    :title: Extract a lightcurve";
    "    :link: ../tutorials/analysis/time/light_curve.html";
    blank;
    "The light curve estimation tutorial shows how to extract a run-wise lightcurve.";
    blank;
    "To perform an analysis in a time range smaller than that of an observation, it";
    "is necessary to filter the latter with its `~gammapy.data.Observations.select_time` method. This produces";
    "an new observation containing events in the specified time range. With the new";
    "`~gammapy.data.Observations` it is then possible to perform the usual data";
    "reduction which will produce datasets in the correct time range. The light curve";
    "extraction can then be performed as usual with the";
    "`~gammapy.estimators.LightCurveEstimator`. This is demonstrated in the light curve flare tutorial.";
    blank;
    ".. accordion-footer::";
    blank;
    ".. accordion-header:: ";
    "    :id: collapseNine";
    "    :title: Choose units for plotting";
    blank;
    "Units for plotting are handled with a combination of `matplotlib` and `astropy.units`.";
    "For most plotting methods Gammapy forwards additional keywords to the corresponding";
    "matplotlib plot method, including the `xunits` and `yunits` keywords, which allows";
    "you to define the x and y axis units using `astropy.units`. Here is a minimal example:";
    blank;
    ".. code::";
    blank;
    "    from gammapy.estimators import FluxPoints";
    "    from astropy import units as u";
    blank;
    "    filename = " ++ dq ++ "$GAMMAPY_DATA/hawc_crab/HAWC19_flux_points.fits" ++ dq;
    "    fp = FluxPoints.read(filename)";
    "    fp.plot(sed_type=" ++ dq ++ "e2dnde" ++ dq ++ ", xunits=u.erg, yunits=u.Unit(" ++ dq ++ "erg cm-2 s-1" ++ dq ++ "))";
    blank;
    ".. accordion-footer::";
    blank;
    ".. accordion-header:: ";
    "    :id: collapseTen";
    "    :title: Compute source significance";
    blank;
    "Estimate the significance of a source, or more generally of an additional model";
    "component (such as e.g. a spectral line on top of a power-law spectrum), is done";
    "via a hypothesis test. You fit two models, with and without the extra source or";
    "component, then use the test statistic values from both fits to compute the";
    "significance or p-value. To obtain the test statistic, call";
    "`~gammapy.modeling.Dataset.stat_sum` for the model corresponding to your two";
    "hypotheses (or take this value from the print output when running the fit), and";
    "take the difference. Note that in Gammapy, the fit statistic is defined as ``S =";
    "- 2 * log(L)`` for likelihood ``L``, such that ``TS = S_0 - S_1``. See";
    ":ref:`overview_datasets` for an overview of fit statistics used.";
    blank;
    ".. accordion-footer::";
    blank;
    ".. accordion-header:: ";
    "    :id: collapseEleven";
    "    :title: Compute cumulative significance";
    "    :link: ../tutorials/analysis/1D/spectral_analysis.html#Source-statistic";
    blank;
    "A classical plot in gamma-ray astronomy is the cumulative significance of a";
    "source as a function of observing time. In Gammapy, you can produce it with 1D";
    "(spectral) analysis. Once datasets are produced for a given ON region, you can";
    "access the total statistics with the ``info_table(cumulative=True)`` method of";
    "`~gammapy.datasets.Datasets`.";
    blank;
    ".. accordion-footer::";
    blank;
    ".. accordion-header:: ";
    "    :id: collapseTwelve";
    "    :title: Detect sources in a map";
    "    :link: ../tutorials/analysis/2D/detect.html";
    blank;
    "Gammapy provides methods to perform source detection in a 2D map. First step is";
    "to produce a significance map, i.e. a map giving the probability that the flux";
    "measured at each position is a background fluctuation. For a";
    "`~gammapy.datasets.MapDataset`, the class `~gammapy.estimators.TSMapEstimator` can be";
    "used. A simple correlated Li & Ma significance can be used, in particular for";
    "ON-OFF datasets. The second step consists in applying a peak finer algorithm,";
    "such as `~gammapy.estimators.utils.find_peaks`.";
    blank;
    ".. accordion-footer::";
    blank;
    ".. accordion-header:: ";
    "    :id: collapseThirteen";
    "    :title: Astrophysical source modeling";
    blank;
    "It is possible to combine Gammapy with astrophysical modeling codes, if they";
    "provide a Python interface. Usually this requires some glue code to be written,";
    "e.g. `~gammapy.modeling.models.NaimaSpectralModel` is an example of a Gammapy";
    "wrapper class around the Naima spectral model and radiation classes, which then";
    "allows modeling and fitting of Naima models within Gammapy (e.g. using CTA,";
    "H.E.S.S. or Fermi-LAT data).";
    blank;
    ".. accordion-footer::";
    blank;
    ".. accordion-header:: ";
    "    :id: collapseFourteen";
    "    :title: Implement a custom model";
    "    :link: ../tutorials/api/models.html#Implementing-a-Custom-Model";
    blank;
    "Gammapy allows the flexibility of using user-defined models for analysis.";
    blank;
    ".. accordion-footer::";
    blank;
    ".. accordion-header:: ";
    "    :id: collapseFifteen";
    "    :title: Energy dependent spatial models";
    "    :link: ../tutorials/api/models.html#Models-with-energy-dependent-morphology";
    blank;
    "While Gammapy does not ship energy dependent spatial models, it is possible to define";
    "such models within the modeling framework.";
    blank;
    ".. accordion-footer::";
    blank;
    ".. accordion-header:: ";
    "    :id: collapseSixteen";
    "    :title: Reduce memory budget for large datasets";
    blank;
    "When dealing with surveys and large sky regions, the amount of memory required might become";
    "problematic, in particular because of the default settings of the IRF maps stored in the";
    "`~gammapy.datasets.MapDataset` used for the data reduction. Several options can be used to reduce";
    "the required memory:";
    "- Reduce the spatial sampling of the `~gammapy.irf.PSFMap` and the `~gammapy.irf.EDispKernelMap`";
    "using the `binsz_irf` argument of the `~gammapy.datasets.MapDataset.create` method. This will reduce";
    "the accuracy of the IRF kernels used for model counts predictions.";
    "- Change the default IRFMap axes, in particular the `rad_axis` argument of `~gammapy.datasets.MapDataset.create`";
    "This axis is used to define the geometry of the `~gammapy.irf.PSFMap` and controls the distribution of error angles";
    "used to sample the PSF. This will reduce the quality of the PSF description.";
    "- If one or several IRFs are not required for the study at hand, it is possible not to build them";
    "by removing it from the list of options passed to the `~gammapy.makers.MapDatasetMaker`.";
    blank;
    ".. accordion-footer::";
    blank;
    ".. accordion-header:: ";
    "    :id: collapseSeventeen";
    "    :title: Copy part of a data store";
    blank;
    "To share specific data from a database, it might be necessary to create a new data storage with";
    "a limited set of observations and summary files following the scheme described in gadf_.";
    "This is possible with the method `~gammapy.data.DataStore.copy_obs` provided by the";
    "`~gammapy.data.DataStore`. It allows to copy individual observations files in a given directory";
    "and build the associated observation and HDU tables.";
    blank;
    ".. accordion-footer::";
    blank;
    ".. accordion-header:: ";
    "    :id: collapseEighteen";
    "    :title: Interpolate onto a different geometry";
    "    :link: ../tutorials/api/maps.html#Filling-maps-from-interpolation";
    blank;
    "To interpolate maps onto a different geometry use `~gammapy.maps.Map.interp_to_geom`.";
    blank;
    ".. accordion-footer::";
    blank;
    ".. accordion-header:: ";
    "    :id: collapseNineteen";
    "    :title: Suppress warnings";
    blank;
    "In general it is not recommended to suppress warnings from code because they";
    "might point to potential issues or help debugging a non-working script. However";
    "in some cases the cause of the warning is known and the warnings clutter the";
    "logging output. In this case it can be useful to locally suppress a specific";
    "warning like so:";
    blank;
    ".. testcode::";
    blank;
    "    from astropy.io.fits.verify import VerifyWarning";
    "    import warnings";
    blank;
    "    with warnings.catch_warnings():";
    "        warnings.simplefilter('ignore', VerifyWarning)";
    "        # do stuff here";
    blank;
    ".. accordion-footer::" ].

(** The cells of the Modelling notebook, the first notebook of [docs/tutorials/api/model_management.ipynb]. *)
Definition modelling_cells : list cell :=
  [ md [ "# Modelling";
         blank;
         "## Aim";
         blank;
         "The main aim of this tutorial is to illustrate model management in Gammapy, specially how to distribute multiple models across multiple datasets. We also show some convenience functions built in gammapy for handling multiple model components.";
         blank;
         "**Note: Since gammapy v0.18, the responsibility of model management is left totally upon the user. All models, including background models, have to be explicitly defined.** To keep track of the used models, we define a global `Models` object (which is a collection of `SkyModel` objects) to which we append and delete models.";
         blank;
         blank;
         "## Prerequisites";
         blank;
         "- Knowledge of 3D analysis, dataset reduction and fitting see [analysis notebook](../starting/analysis_2.ipynb)";
         "- Understanding of gammapy models [see the models tutorial](models.ipynb)";
         "- Analysis of the [galactic center with Fermi-LAT](../data/fermi_lat.ipynb)";
         "- Analysis of the [galactic center with CTA-DC1](../analysis/3D/analysis_3d.ipynb)";
         blank;
         "## Proposed approach";
         blank;
         "To show how datasets interact with models, we use two pre-computed datasets on the galactic center, one from Fermi-LAT and the other from simulated CTA (DC1) data. We demonstrate";
         blank;
         "- Adding background models for each dataset";
         "- Sharing a model between multiple datasets";
         blank;
         "We then load models from the Fermi 3FHL catalog to show some convenience handling for multiple `Models` together";
         blank;
         "- accessing models from a catalog";
         "- selecting models contributing to a given region";
         "- adding and removing models";
         "- freezing and thawing multiple model parameters together";
         "- serialising models";
         blank;
         blank;
         "For computational purposes, we do not perform any fitting in this notebook.";
         blank;
         "## Setup" ];
    py [ "%matplotlib inline";
         "import matplotlib.pyplot as plt" ];
    py [ "from astropy import units as u";
         "from astropy.coordinates import SkyCoord";
         "from gammapy.maps import Map";
         "from gammapy.datasets import MapDataset, Datasets";
         "from gammapy.modeling.models import (";
         "    PointSpatialModel,";
         "    SkyModel,";
         "    TemplateSpatialModel,";
         "    PowerLawNormSpectralModel,";
         "    Models,";
         "    create_fermi_isotropic_diffuse_model,";
         "    FoVBackgroundModel,";
         ")";
         "from regions import CircleSkyRegion" ];
    py [ "from gammapy.modeling.models import GaussianSpatialModel" ];
    md [ "## Read the datasets";
         blank;
         "First, we read some precomputed Fermi and CTA datasets, and create a `Datasets` object containing the two." ];
    py [ "fermi_dataset = MapDataset.read(";
         "    " ++ dq ++ "$GAMMAPY_DATA/fermi-3fhl-gc/fermi-3fhl-gc.fits.gz" ++ dq ++ ", name=" ++ dq ++ "fermi_dataset" ++ dq;
         ")";
         "cta_dataset = MapDataset.read(";
         "    " ++ dq ++ "$GAMMAPY_DATA/cta-1dc-gc/cta-1dc-gc.fits.gz" ++ dq ++ ", name=" ++ dq ++ "cta_dataset" ++ dq;
         ")";
         "datasets = Datasets([fermi_dataset, cta_dataset])" ];
    md [ "Plot the counts maps to see the region" ];
    py [ "plt.figure(figsize=(15, 5))";
         "ax1 = plt.subplot(121, projection=fermi_dataset.counts.geom.wcs)";
         "ax2 = plt.subplot(122, projection=cta_dataset.counts.geom.wcs)";
         blank;
         blank;
         "datasets[0].counts.sum_over_axes().smooth(0.05 * u.deg).plot(";
         "    ax=ax1, stretch=" ++ dq ++ "sqrt" ++ dq ++ ", add_cbar=True";
         ")";
         "datasets[1].counts.sum_over_axes().smooth(0.05 * u.deg).plot(";
         "    ax=ax2, stretch=" ++ dq ++ "sqrt" ++ dq ++ ", add_cbar=True";
         ")";
         "ax1.set_title(" ++ dq ++ "Fermi counts" ++ dq ++ ")";
         "ax2.set_title(" ++ dq ++ "CTA counts" ++ dq ++ ");" ];
    py [ "datasets.info_table(cumulative=False)" ];
    py [ "print(datasets)" ];
    md [ "Note that while the datasets have an associated background map, they currently do not have any associated background model. This will be added in the following section" ];
    md [ "## Assigning background models to datasets";
         blank;
         "For any IACT dataset (in this case `cta_dataset`) , we have to create a `FoVBackgroundModel`. Note that `FoVBackgroundModel`";
         " must be specified to one dataset only";
         blank;
         "For Fermi-LAT, the background contribution is taken from a diffuse isotropic template. To convert this into a gammapy `SkyModel`, use the helper function `create_fermi_isotropic_diffuse_model()` ";
         blank;
         "To attach a model on a particular dataset it is necessary to specify the `datasets_names`. Otherwise, by default, the model will be applied to all the datasets in `datasets` " ];
    md [ "First, we must create a global `Models` object which acts as the container for all models used in a particular analysis" ];
    py [ "models = Models()  # global models object" ];
    py [ "# Create the FoV background model for CTA data";
         blank;
         "bkg_model = FoVBackgroundModel(dataset_name=cta_dataset.name)";
         "models.append(bkg_model)  # Add the bkg_model to models()" ];
    py [ "# Read the fermi isotropic diffuse background model";
         blank;
         "diffuse_iso = create_fermi_isotropic_diffuse_model(";
         "    filename=" ++ dq ++ "$GAMMAPY_DATA/fermi_3fhl/iso_P8R2_SOURCE_V6_v06.txt" ++ dq ++ ",";
         ")";
         "diffuse_iso.datasets_names = fermi_dataset.name  # specifying the dataset name" ];
    py [ "models.append(diffuse_iso)  # Add the fermi_bkg_model to models()" ];
    py [ "# Now, add the models to datasets";
         "datasets.models = models" ];
    py [ "# You can see that each dataset lists the correct associated models";
         "print(datasets)" ];
    md [ "## Add a model on multiple datasets ";
         blank;
         "In this section, we show how to add a model to multiple datasets. For this,  we specify a list of `datasets_names` to the model. Alternatively, not specifying any `datasets_names` will add it to all the datasets.";
         blank;
         "For this example, we use a template model of the galactic diffuse emission to be shared between the two datasets." ];
    py [ "# Create the diffuse model";
         "diffuse_galactic_fermi = Map.read(";
         "    " ++ dq ++ "$GAMMAPY_DATA/fermi-3fhl-gc/gll_iem_v06_gc.fits.gz" ++ dq;
         ")";
         blank;
         "template_diffuse = TemplateSpatialModel(";
         "    diffuse_galactic_fermi, normalize=False";
         ")  # the template model in this case is already a full 3D model, it should not be normalised";
         blank;
         "diffuse_iem = SkyModel(";
         "    spectral_model=PowerLawNormSpectralModel(),";
         "    spatial_model=template_diffuse,";
         "    name=" ++ dq ++ "diffuse-iem" ++ dq ++ ",";
         "    datasets_names=[";
         "        cta_dataset.name,";
         "        fermi_dataset.name,";
         "    ],  # specifying list of dataset names";
         ")  # A power law spectral correction is applied in this case" ];
    py [ "# Now, add the diffuse model to the global models list";
         "models.append(diffuse_iem)" ];
    py [ "# add it to the datasets, and inspect";
         "datasets.models = models";
         "print(datasets)" ];
    md [ "The `diffuse-iem` model is correctly present on both. Now, you can proceed with the fit. For computational purposes, we skip it in this notebook" ];
    py [ "#%%time";
         "# fit2 = Fit(datasets)";
         "# result2 = fit2.run()";
         "# print(result2.success)" ];
    md [ "## Loading models from a catalog";
         blank;
         "We now load the Fermi 3FHL catalog and demonstrate some convenience functions. For more details on using gammapy catalog, see here[catalogs.ipynb]." ];
    py [ "from gammapy.catalog import SourceCatalog3FHL";
         blank;
         "catalog = SourceCatalog3FHL()" ];
    md [ "We first choose some relevant models from the catalog and create a new `Models` object." ];
    py [ "gc_sep = catalog.positions.separation(";
         "    SkyCoord(0, 0, unit=" ++ dq ++ "deg" ++ dq ++ ", frame=" ++ dq ++ "galactic" ++ dq ++ ")";
         ")";
         "models_3fhl = [";
         "    _.sky_model() for k, _ in enumerate(catalog) if gc_sep[k].value < 8";
         "]";
         "models_3fhl = Models(models_3fhl)" ];
    py [ "len(models_3fhl)" ];
    md [ "## Selecting models contributing to a given region";
         blank;
         "We now use `Models.select_region()` to get a subset of models contributing to a particular region. You can also use `Models.select_mask()` to get models lying inside the `True` region of a mask map`" ];
    py [ "region = CircleSkyRegion(";
         "    center=SkyCoord(0, 0, unit=" ++ dq ++ "deg" ++ dq ++ ", frame=" ++ dq ++ "galactic" ++ dq ++ "), radius=3.0 * u.deg";
         ")" ];
    py [ "models_selected = models_3fhl.select_region(region)";
         "len(models_selected)" ];
    md [ "We now want to assign `models_3fhl` to the Fermi dataset, and `models_selected` to both the CTA and Fermi datasets. For this, we explicitlty mention the `datasets_names` to the former, and leave it `None` (default) for the latter." ];
    py [ "for model in models_3fhl:";
         "    if model not in models_selected:";
         "        model.datasets_names = fermi_dataset.name" ];
    py [ "# assign the models to datasets";
         "datasets.models = models_3fhl" ];
    md [ "To see the models on a particular dataset, you can simply see" ];
    py [ "print(" ++ dq ++ "Fermi dataset models: " ++ dq ++ ", datasets[0].models.names)";
         "print(" ++ dq ++ "\n CTA dataset models: " ++ dq ++ ", datasets[1].models.names)" ];
    md [ "## Combining two `Models`" ];
    md [ "`Models` can be extended simply as as python lists" ];
    py [ "models.extend(models_selected)";
         "print(len(models))" ];
    md [ "## Selecting models from a list";
         blank;
         "A `Model` can be selected from a list of `Models` by specifying its index or its name." ];
    py [ "model = models_3fhl[0]";
         "print(model)" ];
    py [ "# Alternatively";
         "model = models_3fhl[" ++ dq ++ "3FHL J1731.7-3003" ++ dq ++ "]";
         "print(model)" ];
    md [ "`Models.select` can be used to select all models satisfying a list of conditions.";
         "To select all models applied on the cta_dataset with the characters `1748` in the name" ];
    py [ "models = models_3fhl.select(";
         "    datasets_names=cta_dataset.name, name_substring=" ++ dq ++ "1748" ++ dq;
         ")";
         "print(models)" ];
    md [ "Note that `Models.select()` combines the different conditions with an `AND` operator. If one needs to combine conditions with a `OR` operator, the `Models.selection_mask()` method can generate a boolean array that can be used for selection. For ex:" ];
    py [ "selection_mask = models_3fhl.selection_mask(";
         "    name_substring=" ++ dq ++ "1748" ++ dq;
         ") | models_3fhl.selection_mask(name_substring=" ++ dq ++ "1731" ++ dq ++ ")";
         blank;
         "models_OR = models_3fhl[selection_mask]";
         "print(models_OR)" ];
    md [ "## Removing a model from a dataset" ];
    md [ "Any addition or removal of a model must happen through the global models object, which must then be re-applied on the dataset(s). Note that operations **cannot** be directly performed on `dataset.models()`.";
         blank ];
    py [ "# cta_dataset.models.remove()";
         "# * this is forbidden *" ];
    py [ "# Remove the model '3FHL J1744.5-2609'";
         "models_3fhl.remove(" ++ dq ++ "3FHL J1744.5-2609" ++ dq ++ ")";
         "len(models_3fhl)" ];
    py [ "# After any operation on models, it must be re-applied on the datasets";
         "datasets.models = models_3fhl" ];
    md [ "To see the models applied on a dataset, you can simply" ];
    py [ "datasets.models.names" ];
    md [ "### Plotting models on a (counts) map";
         blank;
         "The spatial regions of `Models` can be plotted on a given geom using `Models.plot_regions()`. You can also use `Models.plot_positions()` to plot the centers of each model." ];
    py [ "plt.figure(figsize=(16, 5))";
         "ax1 = plt.subplot(121, projection=fermi_dataset.counts.geom.wcs)";
         "ax2 = plt.subplot(122, projection=cta_dataset.counts.geom.wcs)";
         blank;
         "for ax, dataset in zip([ax1, ax2], datasets):";
         "    dataset.counts.sum_over_axes().smooth(0.05 * u.deg).plot(";
         "        ax=ax, stretch=" ++ dq ++ "sqrt" ++ dq ++ ", add_cbar=True, cmap=" ++ dq ++ "afmhot" ++ dq;
         "    )";
         "    dataset.models.plot_regions(ax=ax, color=" ++ dq ++ "white" ++ dq ++ ")";
         "    ax.set_title(dataset.name);" ];
    md [ "## Freezing and unfreezing model parameters";
         blank;
         "For a given model, any parameter can be (un)frozen individually. Additionally, `model.freeze` and `model.unfreeze` can be used to freeze and unfreeze all parameters in one go." ];
    py [ "model = models_3fhl[0]";
         "print(model)" ];
    py [ "# To freeze a single parameter";
         "model.spectral_model.index.frozen = True";
         "print(model)  # index is now frozen" ];
    py [ "# To unfreeze a parameter";
         "model.spectral_model.index.frozen = False" ];
    py [ "# To freeze all parameters of a model";
         "model.freeze()";
         "print(model)" ];
    py [ "# To unfreeze all parameters (except parameters which must remain frozen)";
         "model.unfreeze()";
         "print(model)" ];
    md [ "Only spectral or spatial or temporal components of a model can also be frozen" ];
    py [ "# To freeze spatial components";
         "model.freeze(" ++ dq ++ "spatial" ++ dq ++ ")";
         "print(model)" ];
    md [ "To check if all the parameters of a model are frozen, " ];
    py [ "model.frozen  # False because spectral components are not frozen" ];
    py [ "model.spatial_model.frozen  # all spatial components are frozen" ];
    md [ "The same operations can be performed on `Models` directly - to perform on a list of models at once, eg" ];
    py [ "models_selected.freeze()  # freeze all parameters of all models" ];
    py [ "models_selected.unfreeze()  # unfreeze all parameters of all models" ];
    py [ "# print the free parameters in the models";
         "models_selected.parameters.free_parameters.names" ];
    md [ "There are more functionalities which you can explore. In general, using `help()` on any function is a quick and useful way to access the documentation. For ex, `Models.unfreeze_all` will unfreeze all parameters, even those which are fixed by default. To see its usage, you can simply type" ];
    py [ "help(models_selected.unfreeze)" ];
    md [ "## Serialising models" ];
    md [ "`Models` can be (independently of `Datasets`) written to/ read from a disk as yaml files. ";
         "Datasets are always serialised along with their associated models, ie, with yaml and fits files.";
         "eg:" ];
    py [ "# To save only the models";
         "models_3fhl.write(" ++ dq ++ "3fhl_models.yaml" ++ dq ++ ", overwrite=True)" ];
    py [ "# To save datasets and models";
         "datasets.write(filename=" ++ dq ++ "datasets-gc.yaml" ++ dq ++ ", overwrite=True)" ];
    py [ "# To read only models";
         "models = Models.read(" ++ dq ++ "3fhl_models.yaml" ++ dq ++ ")";
         "print(models)" ];
    py [ "# To read datasets with models";
         "datasets_read = Datasets.read(" ++ dq ++ "datasets-gc.yaml" ++ dq ++ ")";
         "print(datasets)" ] ].

(** The cells of the Makers notebook, the second notebook of [docs/tutorials/api/model_management.ipynb]. *)
Definition makers_cells : list cell :=
  [ md [ blank;
         "# Makers - Data reduction";
         blank;
         "## Introduction";
         blank;
         blank;
         "The `gammapy.makers` sub-package contains classes to perform data reduction tasks";
         "from DL3 data to binned datasets.";
         "In the data reduction step the DL3 data is prepared for modeling and fitting,";
         "by binning events into a counts map and interpolating the exposure, background,";
         "psf and energy dispersion on the chosen analysis geometry.";
         blank;
         "## Setup" ];
    py [ "from gammapy.makers import (";
         "    MapDatasetMaker,";
         "    FoVBackgroundMaker,";
         "    SafeMaskMaker,";
         "    SpectrumDatasetMaker,";
         "    ReflectedRegionsBackgroundMaker,";
         "    DatasetsMaker";
         ")";
         "from gammapy.datasets import MapDataset, SpectrumDataset, Datasets";
         "from gammapy.data import DataStore";
         "from gammapy.maps import MapAxis, WcsGeom, RegionGeom";
         "from regions import CircleSkyRegion";
         "from astropy import units as u";
         "import numpy as np" ];
    md [ "## Dataset";
         blank;
         "The counts, exposure,";
         "background and IRF maps are bundled together in a data structure named `MapDataset`.";
         "To handle on-off observations Gammapy also features a `MapDatasetOnOff` class, which";
         "stores in addition the `counts_off`, `acceptance` and `acceptance_off` data.";
         blank;
         "The first step of the data reduction is to create an empty dataset. A `MapDataset` can be created from any `WcsGeom` object. This is illustrated in the following example:";
         blank ];
    py [ "energy_axis = MapAxis.from_bounds(";
         "    1, 10, nbin=11, name=" ++ dq ++ "energy" ++ dq ++ ", unit=" ++ dq ++ "TeV" ++ dq ++ ", interp=" ++ dq ++ "log" ++ dq;
         ")";
         "geom = WcsGeom.create(";
         "    skydir=(83.63, 22.01),";
         "    axes=[energy_axis],";
         "    width=5 * u.deg,";
         "    binsz=0.05 * u.deg,";
         "    frame=" ++ dq ++ "icrs" ++ dq ++ ",";
         ")";
         "dataset_empty = MapDataset.create(geom=geom)";
         "print(dataset_empty)" ];
    md [ "It is possible to compute the instrument response functions with different spatial and energy binnings as compared to the counts and background maps. For example, one can specify a true energy axis which defines the energy binning of the IRFs:" ];
    py [ "energy_axis_true = MapAxis.from_bounds(";
         "    0.3, 10, nbin=31, name=" ++ dq ++ "energy_true" ++ dq ++ ", unit=" ++ dq ++ "TeV" ++ dq ++ ", interp=" ++ dq ++ "log" ++ dq;
         ")";
         "dataset_empty = MapDataset.create(geom=geom, energy_axis_true=energy_axis_true)" ];
    md [ "For the detail of the other options availables, you can always call the help:" ];
    py [ "help(MapDataset.create)" ];
    md [ "Once this empty " ++ dq ++ "reference" ++ dq ++ " dataset is defined, it can be filled with observational";
         "data using the `MapDatasetMaker`:";
         blank ];
    py [ "# get observation";
         "data_store = DataStore.from_dir(" ++ dq ++ "$GAMMAPY_DATA/hess-dl3-dr1" ++ dq ++ ")";
         "obs = data_store.get_observations([23592])[0]";
         blank;
         "# fill dataset";
         "maker = MapDatasetMaker()";
         "dataset = maker.run(dataset_empty, obs)";
         "print(dataset)";
         "dataset.counts.sum_over_axes().plot(stretch=" ++ dq ++ "sqrt" ++ dq ++ ", add_cbar=True);" ];
    md [ "The `MapDatasetMaker` fills the corresponding `counts`, `exposure`, `background`,";
         "`psf` and `edisp` map per observation. The `MapDatasetMaker` has a";
         "`selection` parameter, in case some of the maps should not be computed. There is also a `background_oversampling` parameter that defines the oversampling factor in energy used to compute the bakcground (default is None).";
         blank;
         "## Safe data range handling";
         blank;
         blank;
         "To exclude the data range from a `MapDataset`, that is associated with";
         "high systematics on instrument response functions, a `mask_safe`";
         "can be defined. The `mask_safe` is a `Map` object with `bool` data";
         "type, which indicates for each pixel, whether it should be included";
         "in the analysis. The convention is that a value of `True` or `1`";
         "includes the pixel, while a value of `False` or `0` excludes a pixels";
         "from the analysis. To compute safe data range masks according to certain";
         "criteria, Gammapy provides a `SafeMaskMaker` class. The different criteria are given by the `methods`argument, available options are :";
         blank;
         "- aeff-default, uses the energy ranged specified in the DL3 data files, if available.";
         "- aeff-max, the lower energy threshold is determined such as the effective area is above a given percentage of its maximum";
         "- edisp-bias, the lower energy threshold is determined such as the energy bias is below a given percentage";
         "- offset-max, the data beyond a given offset radius from the observation center are excluded";
         "- bkg-peak, the energy threshold is defined as the upper edge of the energy bin with the highest predicted background rate. This method was introduced in the HESS DL3 validation paper: https://arxiv.org/pdf/1910.08088.pdf";
         blank;
         blank;
         blank;
         "Multiple methods can be combined. Here is an example :";
         blank ];
    py [ "safe_mask_maker = SafeMaskMaker(";
         "    methods=[" ++ dq ++ "aeff-default" ++ dq ++ ", " ++ dq ++ "offset-max" ++ dq ++ "], offset_max=" ++ dq ++ "3 deg" ++ dq;
         ")";
         blank;
         "dataset = maker.run(dataset_empty, obs)";
         "dataset = safe_mask_maker.run(dataset, obs)";
         "print(dataset.mask_safe)";
         "dataset.mask_safe.sum_over_axes().plot();" ];
    md [ blank;
         "The `SafeMaskMaker` does not modify any data, but only defines the";
         "`MapDataset.mask_safe` attribute. This means that the safe data";
         "range can be defined and modified in between the data reduction";
         "and stacking and fitting. For a joint-likelihood analysis of multiple";
         "observations the safe mask is applied to the counts and predicted";
         "number of counts map during fitting. This correctly accounts for";
         "contributions (spill-over) by the PSF from outside the field of view.";
         blank;
         "## Background estimation";
         blank;
         blank;
         "The background computed by the `MapDatasetMaker` gives the number of counts predicted";
         "by the background IRF of the observation. Because its actual normalization, or even its";
         "spectral shape, might be poorly constrained, it is necessary to correct it with the data";
         "themselves. This is the role of background estimation Makers. ";
         blank;
         blank;
         "### FoV background";
         blank;
         blank;
         "If the background energy dependent morphology is well reproduced by the background model";
         "stored in the IRF, it might be that its normalization is incorrect and that some spectral";
         "corrections are necessary. This is made possible thanks to the `~gammapy.makers.FoVBackgroundMaker`.";
         "This technique is recommended in most 3D data reductions. For more details and usage, see [fov_background](https://docs.gammapy.org/dev/makers/fov.html).";
         blank;
         "Here we are going to use a `~gammapy.makers.FoVBackgroundMaker` that will rescale the background model to the data excluding the region where a known source is present. For more details on the way to create exclusion masks see the [mask maps](mask_maps.ipynb) notebook.";
         blank ];
    py [ "circle = CircleSkyRegion(center=geom.center_skydir, radius=0.2 * u.deg)";
         "exclusion_mask = geom.region_mask([circle], inside=False)";
         blank;
         "fov_bkg_maker = FoVBackgroundMaker(";
         "    method=" ++ dq ++ "scale" ++ dq ++ ", exclusion_mask=exclusion_mask";
         ")";
         "dataset = fov_bkg_maker.run(dataset)" ];
    md [ "Other backgrounds production methods are available as listed below.";
         blank;
         "### Ring background";
         blank;
         "If the background model does not reproduce well the morphology, a classical approach consists";
         "in applying local corrections by smoothing the data with a ring kernel. This allows to build a set";
         "of OFF counts taking into account the inperfect knowledge of the background. This is implemented";
         "in the `~gammapy.makers.RingBackgroundMaker` which transforms the Dataset in a `MapDatasetOnOff`.";
         "This technique is mostly used for imaging, and should not be applied for 3D modeling and fitting.";
         blank;
         "For more details and usage, see [ring_background](https://docs.gammapy.org/dev/makers/ring.html).";
         blank;
         blank;
         "### Reflected regions background";
         blank;
         "In the absence of a solid background model, a classical technique in Cherenkov astronomy for 1D";
         "spectral analysis is to estimate the background in a number of OFF regions. When the background";
         "can be safely estimated as radially symmetric w.r.t. the pointing direction, one can apply the";
         "reflected regions background technique.";
         "This is implemented in the `~gammapy.makers.ReflectedRegionsBackgroundMaker` which transforms a";
         "`SpectrumDataset` in a `SpectrumDatasetOnOff`. This technique is only used for 1D spectral";
         "analysis.";
         blank;
         "For more details and usage, see [reflected_background](https://docs.gammapy.org/dev/makers/reflected.html).";
         blank;
         blank;
         "## Data reduction loop";
         blank;
         "The data reduction steps can be combined in a single loop to run";
         "a full data reduction chain. For this the `MapDatasetMaker` is run";
         "first and the output dataset is the passed on to the next maker step.";
         "Finally the dataset per observation is stacked into a larger map." ];
    py [ "data_store = DataStore.from_dir(" ++ dq ++ "$GAMMAPY_DATA/hess-dl3-dr1" ++ dq ++ ")";
         "observations = data_store.get_observations([23523, 23592, 23526, 23559])";
         blank;
         "energy_axis = MapAxis.from_bounds(";
         "    1, 10, nbin=11, name=" ++ dq ++ "energy" ++ dq ++ ", unit=" ++ dq ++ "TeV" ++ dq ++ ", interp=" ++ dq ++ "log" ++ dq;
         ")";
         "geom = WcsGeom.create(";
         "    skydir=(83.63, 22.01), axes=[energy_axis], width=5, binsz=0.02";
         ")";
         blank;
         "dataset_maker = MapDatasetMaker()";
         "safe_mask_maker = SafeMaskMaker(";
         "    methods=[" ++ dq ++ "aeff-default" ++ dq ++ ", " ++ dq ++ "offset-max" ++ dq ++ "], offset_max=" ++ dq ++ "3 deg" ++ dq;
         ")";
         blank;
         "stacked = MapDataset.create(geom)";
         blank;
         "for obs in observations:";
         "    local_dataset = stacked.cutout(obs.pointing_radec, width=" ++ dq ++ "6 deg" ++ dq ++ ")";
         "    dataset = dataset_maker.run(local_dataset, obs)";
         "    dataset = safe_mask_maker.run(dataset, obs)";
         "    dataset = fov_bkg_maker.run(dataset)";
         "    stacked.stack(dataset)";
         blank;
         "print(stacked)" ];
    md [ "To maintain good performance it is always recommended to do a cutout";
         "of the `MapDataset` as shown above. In case you want to increase the";
         "offset-cut later, you can also choose a larger width of the cutout";
         "than `2 * offset_max`.";
         blank;
         "Note that we stack the individual `MapDataset`, which are computed";
         "per observation into a larger dataset. During the stacking the safe data";
         "range mask (`MapDataset.mask_safe`) is applied by setting data outside to";
         "zero, then data is added to the larger map dataset. To stack multiple";
         "observations, the larger dataset must be created first.";
         blank;
         "The data reduction loop shown above can be done throught the `DatasetsMaker` class that take as argument a list of makers. **Note that the order of the makers list is important as it determines their execution order.** Moreover the `stack_datasets` option offers the possibily to stack or not the output datasets, and the `n_jobs` option allow to use multiple processes on run." ];
    py [ "global_dataset = MapDataset.create(geom)";
         "makers = [dataset_maker, safe_mask_maker, fov_bkg_maker] #the order matter";
         "datasets_maker = DatasetsMaker(makers, stack_datasets=False, n_jobs=1)";
         "datasets = datasets_maker.run(global_dataset, observations)";
         "print(datasets)" ];
    md [ "## Spectrum dataset";
         blank;
         "The spectrum datasets represent 1D spectra along an energy axis whitin a given on region. The `SpectrumDataset` contains a counts spectrum, and a background model. The `SpectrumDatasetOnOff` contains ON and OFF count spectra, background is implicitly modeled via the OFF counts spectrum. ";
         blank;
         "The `SpectrumDatasetMaker` make spectrum dataset for a single observation.";
         "In that case the irfs and background are computed at a single fixed offset, which is recommend only for point-sources.";
         blank;
         "Here is an example of data reduction loop to create `SpectrumDatasetOnOff` datasets:" ];
    py [ "# on region is given by the CircleSkyRegion previously defined";
         "geom = RegionGeom.create(region=circle, axes=[energy_axis])";
         "exclusion_mask_2d = exclusion_mask.reduce_over_axes(";
         "    np.logical_or, keepdims=False";
         ")";
         blank;
         "spectrum_dataset_empty = SpectrumDataset.create(";
         "    geom=geom, energy_axis_true=energy_axis_true";
         ")";
         blank;
         "spectrum_dataset_maker = SpectrumDatasetMaker(";
         "    containment_correction=False, selection=[" ++ dq ++ "counts" ++ dq ++ ", " ++ dq ++ "exposure" ++ dq ++ ", " ++ dq ++ "edisp" ++ dq ++ "]";
         ")";
         "reflected_bkg_maker = ReflectedRegionsBackgroundMaker(";
         "    exclusion_mask=exclusion_mask_2d";
         ")";
         "safe_mask_masker = SafeMaskMaker(methods=[" ++ dq ++ "aeff-max" ++ dq ++ "], aeff_percent=10)";
         blank;
         "datasets = Datasets()";
         blank;
         "for observation in observations:";
         "    dataset = spectrum_dataset_maker.run(";
         "        spectrum_dataset_empty.copy(name=f" ++ dq ++ "obs-{observation.obs_id}" ++ dq ++ "),";
         "        observation,";
         "    )";
         "    dataset_on_off = reflected_bkg_maker.run(dataset, observation)";
         "    dataset_on_off = safe_mask_masker.run(dataset_on_off, observation)";
         "    datasets.append(dataset_on_off)";
         "print(datasets)" ];
    py [ blank ] ].

(** The cells of the flux point fitting notebook, [docs/tutorials/analysis/1D/sed_fitting.ipynb]. *)
Definition sed_fitting_cells : list cell :=
  [ md [ "# Flux point fitting";
         blank;
         "## Prerequisites";
         blank;
         "- Some knowledge about retrieving information from catalogs, see [the catalogs tutorial](../../api/catalog.ipynb)";
         " ";
         "## Context";
         blank;
         "Some high level studies do not rely on reduced datasets with their IRFs but directly on higher level products such as flux points. This is not ideal because flux points already contain some hypothesis for the underlying spectral shape and the uncertainties they carry are usually simplified (e.g. symmetric gaussian errors). Yet, this is an efficient way to combine heterogeneous data. ";
         blank;
         "**Objective: fit spectral models to combined Fermi-LAT and IACT flux points.**";
         blank;
         "## Proposed approach";
         blank;
         "Here we will load, the spectral points from Fermi-LAT and TeV catalogs and fit them with various spectral models to find the best representation of the wide band spectrum.";
         " ";
         "The central class we're going to use for this example analysis is:  ";
         blank;
         "- `~gammapy.datasets.FluxPointsDataset`";
         blank;
         "In addition we will work with the following data classes:";
         blank;
         "- `~gammapy.estimators.FluxPoints`";
         "- `~gammapy.catalog.SourceCatalogGammaCat`";
         "- `~gammapy.catalog.SourceCatalog3FHL`";
         "- `~gammapy.catalog.SourceCatalog3FGL`";
         blank;
         "And the following spectral model classes:";
         blank;
         "- `~gammapy.modeling.models.PowerLawSpectralModel`";
         "- `~gammapy.modeling.models.ExpCutoffPowerLawSpectralModel`";
         "- `~gammapy.modeling.models.LogParabolaSpectralModel`" ];
    md [ "## Setup";
         blank;
         "Let us start with the usual IPython notebook and Python imports:" ];
    py [ "%matplotlib inline";
         "import matplotlib.pyplot as plt" ];
    py [ "from astropy import units as u";
         "from gammapy.modeling.models import (";
         "    PowerLawSpectralModel,";
         "    ExpCutoffPowerLawSpectralModel,";
         "    LogParabolaSpectralModel,";
         "    SkyModel,";
         ")";
         "from gammapy.estimators import FluxPoints";
         "from gammapy.datasets import FluxPointsDataset, Datasets";
         "from gammapy.catalog import CATALOG_REGISTRY";
         "from gammapy.modeling import Fit" ];
    md [ "## Load spectral points";
         blank;
         "For this analysis we choose to work with the source 'HESS J1507-622' and the associated Fermi-LAT sources '3FGL J1506.6-6219' and '3FHL J1507.9-6228e'. We load the source catalogs, and then access source of interest by name:" ];
    py [ "catalog_3fgl = CATALOG_REGISTRY.get_cls(" ++ dq ++ "3fgl" ++ dq ++ ")()";
         "catalog_3fhl = CATALOG_REGISTRY.get_cls(" ++ dq ++ "3fhl" ++ dq ++ ")()";
         "catalog_gammacat = CATALOG_REGISTRY.get_cls(" ++ dq ++ "gamma-cat" ++ dq ++ ")()" ];
    py [ "source_fermi_3fgl = catalog_3fgl[" ++ dq ++ "3FGL J1506.6-6219" ++ dq ++ "]";
         "source_fermi_3fhl = catalog_3fhl[" ++ dq ++ "3FHL J1507.9-6228e" ++ dq ++ "]";
         "source_gammacat = catalog_gammacat[" ++ dq ++ "HESS J1507-622" ++ dq ++ "]" ];
    md [ "The corresponding flux points data can be accessed with `.flux_points` attribute:" ];
    py [ "dataset_gammacat = FluxPointsDataset(";
         "    data=source_gammacat.flux_points, name=" ++ dq ++ "gammacat" ++ dq;
         ")";
         "dataset_gammacat.data.to_table(sed_type=" ++ dq ++ "dnde" ++ dq ++ ", formatted=True)" ];
    py [ "dataset_3fgl = FluxPointsDataset(";
         "    data=source_fermi_3fgl.flux_points, name=" ++ dq ++ "3fgl" ++ dq;
         ")";
         "dataset_3fgl.data.to_table(sed_type=" ++ dq ++ "dnde" ++ dq ++ ", formatted=True)" ];
    py [ "dataset_3fhl = FluxPointsDataset(";
         "    data=source_fermi_3fhl.flux_points, name=" ++ dq ++ "3fhl" ++ dq;
         ")";
         "dataset_3fhl.data.to_table(sed_type=" ++ dq ++ "dnde" ++ dq ++ ", formatted=True)" ];
    md [ "## Power Law Fit";
         blank;
         "First we start with fitting a simple `~gammapy.modeling.models.PowerLawSpectralModel`." ];
    py [ "pwl = PowerLawSpectralModel(";
         "    index=2, amplitude=" ++ dq ++ "1e-12 cm-2 s-1 TeV-1" ++ dq ++ ", reference=" ++ dq ++ "1 TeV" ++ dq;
         ")";
         "model = SkyModel(spectral_model=pwl, name=" ++ dq ++ "j1507-pl" ++ dq ++ ")" ];
    md [ "After creating the model we run the fit by passing the `'flux_points'` and `'model'` objects:" ];
    py [ "datasets = Datasets([dataset_gammacat, dataset_3fgl, dataset_3fhl])";
         "datasets.models = model";
         "print(datasets)" ];
    py [ "fitter = Fit()";
         "result_pwl = fitter.run(datasets=datasets)" ];
    md [ "And print the result:" ];
    py [ "print(result_pwl)" ];
    py [ "print(model)" ];
    md [ "Finally we plot the data points and the best fit model:" ];
    py [ "ax = plt.subplot()";
         blank;
         "kwargs = {" ++ dq ++ "ax" ++ dq ++ ": ax, " ++ dq ++ "sed_type" ++ dq ++ ": " ++ dq ++ "e2dnde" ++ dq ++ ", " ++ dq ++ "yunits" ++ dq ++ ": u.Unit(" ++ dq ++ "TeV cm-2 s-1" ++ dq ++ ")}";
         blank;
         "for d in datasets:";
         "    d.data.plot(label=d.name, **kwargs)";
         blank;
         "energy_bounds = [1e-4, 1e2] * u.TeV";
         "pwl.plot(energy_bounds=energy_bounds, color=" ++ dq ++ "k" ++ dq ++ ", **kwargs)";
         "pwl.plot_error(energy_bounds=energy_bounds, **kwargs)";
         "ax.set_ylim(1e-13, 1e-11)";
         "ax.set_xlim(energy_bounds)";
         "ax.legend()" ];
    md [ "## Exponential Cut-Off Powerlaw Fit";
         blank;
         "Next we fit an `~gammapy.modeling.models.ExpCutoffPowerLawSpectralModel` law to the data." ];
    py [ "ecpl = ExpCutoffPowerLawSpectralModel(";
         "    index=1.8,";
         "    amplitude=" ++ dq ++ "2e-12 cm-2 s-1 TeV-1" ++ dq ++ ",";
         "    reference=" ++ dq ++ "1 TeV" ++ dq ++ ",";
         "    lambda_=" ++ dq ++ "0.1 TeV-1" ++ dq ++ ",";
         ")";
         "model = SkyModel(spectral_model=ecpl, name=" ++ dq ++ "j1507-ecpl" ++ dq ++ ")" ];
    md [ "We run the fitter again by passing the flux points and the model instance:" ];
    py [ "datasets.models = model";
         "result_ecpl = fitter.run(datasets=datasets)";
         "print(model)" ];
    md [ "We plot the data and best fit model:" ];
    py [ "ax = plt.subplot()";
         blank;
         "kwargs = {" ++ dq ++ "ax" ++ dq ++ ": ax, " ++ dq ++ "sed_type" ++ dq ++ ": " ++ dq ++ "e2dnde" ++ dq ++ ", " ++ dq ++ "yunits" ++ dq ++ ": u.Unit(" ++ dq ++ "TeV cm-2 s-1" ++ dq ++ ")}";
         blank;
         "for d in datasets:";
         "    d.data.plot(label=d.name, **kwargs)";
         blank;
         "ecpl.plot(energy_bounds=energy_bounds, color=" ++ dq ++ "k" ++ dq ++ ", **kwargs)";
         "ecpl.plot_error(energy_bounds=energy_bounds, **kwargs)";
         "ax.set_ylim(1e-13, 1e-11)";
         "ax.set_xlim(energy_bounds)";
         "ax.legend()" ];
    md [ "## Log-Parabola Fit";
         blank;
         "Finally we try to fit a `~gammapy.modeling.models.LogParabolaSpectralModel` model:" ];
    py [ "log_parabola = LogParabolaSpectralModel(";
         "    alpha=2, amplitude=" ++ dq ++ "1e-12 cm-2 s-1 TeV-1" ++ dq ++ ", reference=" ++ dq ++ "1 TeV" ++ dq ++ ", beta=0.1";
         ")";
         "model = SkyModel(spectral_model=log_parabola, name=" ++ dq ++ "j1507-lp" ++ dq ++ ")" ];
    py [ "datasets.models = model";
         "result_log_parabola = fitter.run(datasets=datasets)";
         "print(model)" ];
    py [ "ax = plt.subplot()";
         blank;
         "kwargs = {" ++ dq ++ "ax" ++ dq ++ ": ax, " ++ dq ++ "sed_type" ++ dq ++ ": " ++ dq ++ "e2dnde" ++ dq ++ ", " ++ dq ++ "yunits" ++ dq ++ ": u.Unit(" ++ dq ++ "TeV cm-2 s-1" ++ dq ++ ")}";
         blank;
         "for d in datasets:";
         "    d.data.plot(label=d.name, **kwargs)";
         blank;
         "log_parabola.plot(energy_bounds=energy_bounds, color=" ++ dq ++ "k" ++ dq ++ ", **kwargs)";
         "log_parabola.plot_error(energy_bounds=energy_bounds, **kwargs)";
         "ax.set_ylim(1e-13, 1e-11)";
         "ax.set_xlim(energy_bounds)";
         "ax.legend()" ];
    md [ "## Exercises";
         blank;
         "- Fit a `~gammapy.modeling.models.PowerLaw2SpectralModel` and `~gammapy.modeling.models.ExpCutoffPowerLaw3FGLSpectralModel` to the same data.";
         "- Fit a `~gammapy.modeling.models.ExpCutoffPowerLawSpectralModel` model to Vela X ('HESS J0835-455') only and check if the best fit values correspond to the values given in the Gammacat catalog" ];
    md [ "## What next?";
         blank;
         "This was an introduction to SED fitting in Gammapy.";
         blank;
         "* If you would like to learn how to perform a full Poisson maximum likelihood spectral fit, please check out the [spectrum analysis](spectral_analysis.ipynb) tutorial.";
         "* To learn how to combine heterogeneous datasets to perform a multi-instrument forward-folding fit see the [MWL analysis tutorial](../3D/analysis_mwl.ipynb)" ];
    py [ blank ] ].

Definition howto : document := Rst howto_rst.
Definition modelling : document := Notebook modelling_cells.
Definition makers : document := Notebook makers_cells.
Definition sed_fitting : document := Notebook sed_fitting_cells.

Definition howto_file : src_file :=
  {| path := "docs/userguide/howto.rst"; documents := [howto] |}.
Definition model_management_file : src_file :=
  {| path := "docs/tutorials/api/model_management.ipynb";
     documents := [modelling; makers] |}.
Definition sed_fitting_file : src_file :=
  {| path := "docs/tutorials/analysis/1D/sed_fitting.ipynb";
     documents := [sed_fitting] |}.

(** The supplied material. *)
Definition corpus : list src_file :=
  [howto_file; model_management_file; sed_fitting_file].

Definition all_documents : list document :=
  flat_map documents corpus.

(** ** Reading the text *)

(** *** Characters and strings *)

Definition is_space (c : ascii) : bool := Ascii.eqb c " ".

Definition is_digit (c : ascii) : bool :=
  let n := nat_of_ascii c in ((48 <=? n) && (n <=? 57))%nat.

Definition is_letter (c : ascii) : bool :=
  let n := nat_of_ascii c in
  (((65 <=? n) && (n <=? 90)) || ((97 <=? n) && (n <=? 122)) || (n =? 95))%nat.

Definition is_word_char (c : ascii) : bool := is_letter c || is_digit c.

(** Python's two string delimiters. *)
Definition is_quote (c : ascii) : bool :=
  Ascii.eqb c "'" || (nat_of_ascii c =? 34)%nat.

(** [contains pat s]: [pat] occurs in [s]. *)
Fixpoint contains (pat s : string) : bool :=
  String.prefix pat s ||
  match s with
  | EmptyString => false
  | String _ s' => contains pat s'
  end.

Definition ends_with (suffix s : string) : bool :=
  let n := String.length suffix in
  let m := String.length s in
  (n <=? m)%nat && String.eqb (String.substring (m - n) n s) suffix.

(** Number of leading spaces. *)
Fixpoint indent_of (s : string) : nat :=
  match s with
  | String c s' => if is_space c then S (indent_of s') else 0
  | EmptyString => 0
  end.

Fixpoint strip_left (s : string) : string :=
  match s with
  | String c s' => if is_space c then strip_left s' else s
  | EmptyString => s
  end.

Definition is_blank (s : string) : bool :=
  String.eqb (strip_left s) EmptyString.

Definition mem (x : string) (l : list string) : bool :=
  existsb (String.eqb x) l.

Fixpoint join (sep : string) (l : list string) : string :=
  match l with
  | [] => EmptyString
  | [x] => x
  | x :: r => x ++ sep ++ join sep r
  end.

(** *** Pieces of a Python line: code, string literals, a comment *)

Inductive piece : Type :=
| Code (s : string)
| Str (q : ascii) (closed : bool) (s : string)   (* between two quotes [q] *)
| Comment (s : string).                          (* after the [#] *)

Inductive mode : Type := InCode | InStr (q : ascii).

Definition push (c : ascii) (ps : list piece) : list piece :=
  match ps with
  | Code t :: r => Code (String c t) :: r
  | Str q cl t :: r => Str q cl (String c t) :: r
  | Comment t :: r => Comment (String c t) :: r
  | [] => [Code (String c EmptyString)]
  end.

(** The pieces of a line.  In code a [#] starts the comment that runs to the
    end of the line and a quote opens a string; in a string the same quote
    closes it and a backslash keeps the character after it. *)
Fixpoint lex (m : mode) (s : string) : list piece :=
  match s with
  | EmptyString =>
      match m with
      | InCode => [Code EmptyString]
      | InStr q => [Str q false EmptyString]
      end
  | String c s' =>
      match m with
      | InCode =>
          if Ascii.eqb c "#" then [Code EmptyString; Comment s']
          else if is_quote c then Code EmptyString :: lex (InStr c) s'
          else push c (lex InCode s')
      | InStr q =>
          if Ascii.eqb c q then Str q true EmptyString :: lex InCode s'
          else if Ascii.eqb c "\" then
            match s' with
            | String d s'' => push c (push d (lex (InStr q) s''))
            | EmptyString => push c [Str q false EmptyString]
            end
          else push c (lex (InStr q) s')
      end
  end.

Definition lex_line (s : string) : list piece := lex InCode s.

(** The text of a piece, and of a line of pieces. *)
Definition unlex_piece (p : piece) : string :=
  match p with
  | Code s => s
  | Str q closed s =>
      String q (s ++ (if closed then String q EmptyString else EmptyString))
  | Comment s => String "#" s
  end.

Definition unlex (ps : list piece) : string :=
  fold_right (fun p r => unlex_piece p ++ r) EmptyString ps.

(** *** Tokens *)

Inductive token : Type :=
| Word (s : string)     (* a name, a keyword or the digits of a number *)
| Sym (c : ascii)       (* any other character of the code *)
| Lit (s : string).     (* a string literal, without its quotes *)

Definition flush (cur : string) (k : list token) : list token :=
  match cur with
  | EmptyString => k
  | _ => Word cur :: k
  end.

Fixpoint tok_code (cur : string) (s : string) : list token :=
  match s with
  | EmptyString => flush cur []
  | String c s' =>
      if is_word_char c then tok_code (cur ++ String c EmptyString) s'
      else if is_space c then flush cur (tok_code EmptyString s')
      else flush cur (Sym c :: tok_code EmptyString s')
  end.

Definition piece_tokens (p : piece) : list token :=
  match p with
  | Code s => tok_code EmptyString s
  | Str _ _ s => [Lit s]
  | Comment _ => []
  end.

Definition line_tokens (l : string) : list token :=
  flat_map piece_tokens (lex_line l).

Definition token_eqb (a b : token) : bool :=
  match a, b with
  | Word x, Word y => String.eqb x y
  | Sym x, Sym y => Ascii.eqb x y
  | Lit x, Lit y => String.eqb x y
  | _, _ => false
  end.

Definition is_sym (c : ascii) (t : token) : bool := token_eqb t (Sym c).
Definition is_word (w : string) (t : token) : bool := token_eqb t (Word w).

(** *** Statements: logical lines *)

Definition opens (t : token) : bool := is_sym "(" t || is_sym "[" t || is_sym "{" t.
Definition closes (t : token) : bool := is_sym ")" t || is_sym "]" t || is_sym "}" t.

Definition count (p : token -> bool) (ts : list token) : nat :=
  List.length (filter p ts).

(** A statement: the indentation of its first line and its tokens. *)
Record stmt : Type := { indent : nat; toks : list token }.

(** Lines are joined while a bracket is open, as Python joins them.  Lines
    with no token (blank or comment only) between statements are skipped. *)
Fixpoint split_stmts (depth : nat) (cur : option stmt) (ls : list string)
  : list stmt :=
  match ls with
  | [] => match cur with Some st => [st] | None => [] end
  | l :: rest =>
      let ts := line_tokens l in
      match cur with
      | Some st =>
          let st' := {| indent := indent st; toks := toks st ++ ts |} in
          let d := depth + count opens ts - count closes ts in
          if (d =? 0)%nat then st' :: split_stmts 0 None rest
          else split_stmts d (Some st') rest
      | None =>
          match ts with
          | [] => split_stmts 0 None rest
          | _ =>
              let st := {| indent := indent_of l; toks := ts |} in
              let d := count opens ts - count closes ts in
              if (d =? 0)%nat then st :: split_stmts 0 None rest
              else split_stmts d (Some st) rest
          end
      end
  end.

Definition statements (ls : list string) : list stmt := split_stmts 0 None ls.

(** *** Code samples of a document *)

(** The directives of the page that introduce a code sample. *)
Definition is_code_directive (l : string) : bool :=
  let s := strip_left l in
  String.prefix ".. code::" s || String.prefix ".. testcode::" s ||
  String.prefix ".. code-block::" s.

(** The lines of an indented block: up to the first line that is neither
    blank nor indented. *)
Fixpoint take_block (ls : list string) : list string :=
  match ls with
  | [] => []
  | l :: rest =>
      if is_blank l then l :: take_block rest
      else if (0 <? indent_of l)%nat then l :: take_block rest
      else []
  end.

(** The code samples of a page: the indented block under each code
    directive (the directive line is at the left margin in this page, so a
    block cannot hold another directive). *)
Fixpoint rst_code_blocks (ls : list string) : list (list string) :=
  match ls with
  | [] => []
  | l :: rest =>
      if is_code_directive l then take_block rest :: rst_code_blocks rest
      else rst_code_blocks rest
  end.

Definition code_cells (cs : list cell) : list (list string) :=
  flat_map (fun c => match cell_type c with
                     | code => [source c]
                     | markdown => []
                     end) cs.

(** The code samples of a document, in order. *)
Definition code_samples (d : document) : list (list string) :=
  match d with
  | Rst ls => rst_code_blocks ls
  | Notebook cs => code_cells cs
  end.

(** The statements of a document, sample after sample. *)
Definition doc_stmts (d : document) : list stmt :=
  flat_map statements (code_samples d).

(** ** Names, calls and where they come from *)

Definition python_keywords : list string :=
  ["False"; "None"; "True"; "and"; "as"; "assert"; "async"; "await"; "break";
   "class"; "continue"; "def"; "del"; "elif"; "else"; "except"; "finally";
   "for"; "from"; "global"; "if"; "import"; "in"; "is"; "lambda"; "nonlocal";
   "not"; "or"; "pass"; "raise"; "return"; "try"; "while"; "with"; "yield"].

Definition python_builtins : list string :=
  ["abs"; "all"; "any"; "ascii"; "bin"; "bool"; "bytearray"; "bytes";
   "callable"; "chr"; "classmethod"; "compile"; "complex"; "delattr"; "dict";
   "dir"; "divmod"; "enumerate"; "eval"; "exec"; "filter"; "float"; "format";
   "frozenset"; "getattr"; "globals"; "hasattr"; "hash"; "help"; "hex"; "id";
   "input"; "int"; "isinstance"; "issubclass"; "iter"; "len"; "list";
   "locals"; "map"; "max"; "memoryview"; "min"; "next"; "object"; "oct";
   "open"; "ord"; "pow"; "print"; "property"; "range"; "repr"; "reversed";
   "round"; "set"; "setattr"; "slice"; "sorted"; "staticmethod"; "str"; "sum";
   "super"; "tuple"; "type"; "vars"; "zip"].

Definition starts_with_digit (w : string) : bool :=
  match w with
  | String c _ => is_digit c
  | EmptyString => false
  end.

(** The dotted name at the front of a token list, and what follows it. *)
Fixpoint dotted (ts : list token) : list string * list token :=
  match ts with
  | Word w :: rest =>
      match rest with
      | Sym c :: rest' =>
          if Ascii.eqb c "." then
            match dotted rest' with
            | ([], _) => ([w], rest)
            | (ws, r) => (w :: ws, r)
            end
          else ([w], rest)
      | _ => ([w], rest)
      end
  | _ => ([], ts)
  end.

Definition next_is (p : token -> bool) (ts : list token) : bool :=
  match ts with
  | t :: _ => p t
  | [] => false
  end.

(** [w] followed by a single [=]: the name of a keyword argument. *)
Definition is_kwarg_name (rest : list token) : bool :=
  match rest with
  | t :: rest' => is_sym "=" t && negb (next_is (is_sym "=") rest')
  | [] => false
  end.

Definition is_lit (t : token) : bool :=
  match t with Lit _ => true | _ => false end.

(** The names a token list reads: words that are not attributes (after a
    dot), keywords, numbers, keyword-argument names or string prefixes. *)
Fixpoint name_uses (after_dot : bool) (ts : list token) : list string :=
  match ts with
  | [] => []
  | Word w :: rest =>
      if after_dot || mem w python_keywords || starts_with_digit w
         || is_kwarg_name rest || next_is is_lit rest
      then name_uses false rest
      else w :: name_uses false rest
  | t :: rest => name_uses (is_sym "." t) rest
  end.

(** The calls of a token list whose callee is a dotted name: [f(], [a.b.c(]. *)
Fixpoint calls_of (after_dot : bool) (ts : list token) : list (list string) :=
  match ts with
  | [] => []
  | Word w :: rest =>
      let here :=
        if after_dot || mem w python_keywords || starts_with_digit w then []
        else
          match dotted ts with
          | (names, r) => if next_is (is_sym "(") r then [names] else []
          end in
      here ++ calls_of false rest
  | t :: rest => calls_of (is_sym "." t) rest
  end.

(** The words of a [for] header up to [in], and the tokens after [in]. *)
Fixpoint until_in (ts : list token) : list string * list token :=
  match ts with
  | [] => ([], [])
  | Word w :: rest =>
      if String.eqb w "in" then ([], rest)
      else let (ws, r) := until_in rest in (w :: ws, r)
  | _ :: rest => until_in rest
  end.

(** Every [for targets in iterable] of a token list, loops and
    comprehensions alike. *)
Fixpoint for_bindings (ts : list token) : list (list string * list token) :=
  match ts with
  | [] => []
  | t :: rest =>
      (if is_word "for" t then [until_in rest] else []) ++ for_bindings rest
  end.

(** The form of a statement. *)
Inductive form : Type :=
| FromImport (module : string) (names : list string)
| Import (module : string) (bound : string)
| Magic
| Assign (target : list string) (rhs : list token)
| Other (body : list token).

(** The names a [from m import ...] binds: each imported name, or its alias. *)
Fixpoint import_names (ts : list token) : list string :=
  match ts with
  | [] => []
  | Word w :: rest =>
      if String.eqb w "as" then
        match rest with
        | Word a :: rest' => a :: import_names rest'
        | _ => import_names rest
        end
      else if next_is (is_word "as") rest then import_names rest
      else w :: import_names rest
  | _ :: rest => import_names rest
  end.

Definition classify (ts : list token) : form :=
  match ts with
  | Word w :: rest =>
      if String.eqb w "from" then
        match dotted rest with
        | (m, Word i :: names) =>
            if String.eqb i "import" then FromImport (join "." m) (import_names names)
            else Other ts
        | _ => Other ts
        end
      else if String.eqb w "import" then
        match dotted rest with
        | (m, Word a :: Word b :: _) =>
            if String.eqb a "as" then Import (join "." m) b else Other ts
        | (m0 :: m, []) => Import (join "." (m0 :: m)) m0
        | _ => Other ts
        end
      else
        match dotted ts with
        | (tgt, e :: rhs) =>
            if is_sym "=" e && negb (next_is (is_sym "=") rhs)
            then Assign tgt rhs else Other ts
        | _ => Other ts
        end
  | Sym c :: _ => if Ascii.eqb c "%" then Magic else Other ts
  | _ => Other ts
  end.

(** Where a name comes from.  A value built from a library name keeps that
    name as its origin: after [maker = MapDatasetMaker()], [maker] has the
    origin of [MapDatasetMaker]. *)
Inductive origin : Type :=
| Imported (module : string) (name : option string)
| Builtin
| Literal
| Unbound.

(** What is known of a name: its origin, and whether its value holds flux
    points. *)
Record binding : Type := { b_origin : origin; b_flux : bool }.

Definition env : Type := list (string * binding).

Fixpoint lookup (e : env) (x : string) : option binding :=
  match e with
  | [] => None
  | (y, b) :: r => if String.eqb x y then Some b else lookup r x
  end.

Definition origin_of (e : env) (x : string) : origin :=
  match lookup e x with
  | Some b => b_origin b
  | None => if mem x python_builtins then Builtin else Unbound
  end.

Definition flux_of (e : env) (x : string) : bool :=
  match lookup e x with
  | Some b => b_flux b
  | None => false
  end.

(** The origin of an expression is that of the name it starts with; an
    expression that starts with a literal or a bracket is a literal. *)
Definition expr_origin (e : env) (ts : list token) : origin :=
  match ts with
  | Word w :: _ => if starts_with_digit w then Literal else origin_of e w
  | Lit _ :: _ => Literal
  | Sym _ :: _ => Literal
  | [] => Unbound
  end.

(** The two ways the samples obtain flux points: the [flux_points] attribute
    of a catalog source and [FluxPoints.read]. *)
Fixpoint has_flux_source (ts : list token) : bool :=
  match ts with
  | [] => false
  | t :: rest =>
      (is_sym "." t && next_is (is_word "flux_points") rest)
      || (is_word "FluxPoints" t && next_is (is_sym ".") rest
          && next_is (is_word "read") (tl rest))
      || has_flux_source rest
  end.

(** An expression holds flux points when it obtains them or reads a name
    that holds them. *)
Definition expr_flux (e : env) (ts : list token) : bool :=
  has_flux_source ts || existsb (flux_of e) (name_uses false ts).

Definition bind (x : string) (o : origin) (f : bool) (e : env) : env :=
  (x, {| b_origin := o; b_flux := f |}) :: e.

Definition bind_for (e : env) (fb : list string * list token) : env :=
  let (targets, iter) := fb in
  fold_left (fun e' x => bind x (expr_origin e iter) (expr_flux e iter) e')
            targets e.

(** What the analysis records of a statement. *)
Record fact : Type :=
  { f_stmt : stmt;
    f_form : form;
    f_calls : list (list string * origin);  (* callee, origin of its head *)
    f_uses : list (string * origin);        (* names read, with their origin *)
    f_flux : bool }.                        (* the statement handles flux points *)

(** One statement: the environment after it and its fact. *)
Definition step (e : env) (st : stmt) : env * fact :=
  let ts := toks st in
  let fm := classify ts in
  let body :=
    match fm with
    | FromImport _ _ | Import _ _ | Magic => []
    | Assign tgt rhs =>
        match tgt with
        | [_] => rhs
        | _ => (map Word (firstn 1 tgt) ++ rhs)%list
        end
    | Other b => b
    end in
  let e1 := fold_left bind_for (for_bindings body) e in
  let uses := name_uses false body in
  let cs := map (fun c => (c, origin_of e1 (hd EmptyString c))) (calls_of false body) in
  let us := map (fun x => (x, origin_of e1 x)) uses in
  let fl := expr_flux e1 body in
  let e2 :=
    match fm with
    | FromImport m ns =>
        fold_left (fun e' n => bind n (Imported m (Some n)) false e') ns e
    | Import m b => bind b (Imported m None) false e
    | Assign [x] rhs => bind x (expr_origin e1 rhs) (expr_flux e1 rhs) e1
    | _ => e1
    end in
  (e2, {| f_stmt := st; f_form := fm; f_calls := cs; f_uses := us; f_flux := fl |}).

(** The statements of a sample sequence in order, threading the environment. *)
Fixpoint run (e : env) (sts : list stmt) : list fact :=
  match sts with
  | [] => []
  | st :: rest => let (e', f) := step e st in f :: run e' rest
  end.

(** The facts of a document: its samples share one namespace, as the cells
    of a notebook do. *)
Definition facts (d : document) : list fact := run [] (doc_stmts d).

(** The names a statement reads that nothing binds. *)
Definition f_unbound (f : fact) : list string :=
  map fst (filter (fun u => match snd u with Unbound => true | _ => false end)
                  (f_uses f)).

Definition doc_calls (d : document) : list (list string * origin) :=
  flat_map f_calls (facts d).

(** ** What the claims speak of *)

Definition stmt_words (st : stmt) : list string :=
  flat_map (fun t => match t with Word w => [w] | _ => [] end) (toks st).

Definition stmt_lits (st : stmt) : list string :=
  flat_map (fun t => match t with Lit s => [s] | _ => [] end) (toks st).

Definition has_word (ws : list string) (st : stmt) : bool :=
  existsb (fun w => mem w ws) (stmt_words st).

(** Every line of a document, prose and code. *)
Definition all_lines (d : document) : list string :=
  match d with
  | Rst ls => ls
  | Notebook cs => flat_map source cs
  end.

Definition mentions (w : string) (d : document) : bool :=
  existsb (contains w) (all_lines d).

(** *** Definitions of the file's own *)

(** The Python constructs that define a function or a class. *)
Definition definition_keywords : list string := ["def"; "class"; "lambda"].

Definition defines (st : stmt) : bool := has_word definition_keywords st.

(** *** Error handling *)

Definition error_keywords : list string :=
  ["try"; "except"; "finally"; "raise"; "assert"].

(** An exception class by its name. *)
Definition names_exception (w : string) : bool :=
  ends_with "Error" w || ends_with "Exception" w.

Definition handles_errors (st : stmt) : bool :=
  has_word error_keywords st || existsb names_exception (stmt_words st).

(** *** Concurrency *)

(** Keywords, modules, classes and options by which Python code runs
    things concurrently. *)
Definition concurrency_words : list string :=
  ["async"; "await"; "asyncio"; "threading"; "Thread"; "multiprocessing";
   "Process"; "Pool"; "concurrent"; "futures"; "subprocess"; "joblib";
   "Parallel"; "parallel"; "dask"; "ray"; "Lock"; "Semaphore"; "Queue";
   "n_jobs"; "n_workers"].

Definition is_concurrency_word (w : string) : bool := mem w concurrency_words.

(** Words by which prose would define a scheduling model, a
    synchronization discipline or failure and cancellation behaviour. *)
Definition scheduling_vocabulary : list string :=
  ["schedul"; "synchron"; "cancel"; "thread"; "deadlock"; "mutex";
   "semaphore"; "timeout"; "race condition"; "worker"].

Definition defines_scheduling (l : string) : bool :=
  existsb (fun w => contains w l) scheduling_vocabulary.

(** [w=] followed by a number: the keyword argument [w] set to a literal. *)
Fixpoint kwarg_number (w : string) (ts : list token) : option string :=
  match ts with
  | Word x :: rest =>
      match rest with
      | Sym c :: Word v :: _ =>
          if String.eqb x w && Ascii.eqb c "=" && starts_with_digit v
          then Some v else kwarg_number w rest
      | _ => kwarg_number w rest
      end
  | _ :: rest => kwarg_number w rest
  | [] => None
  end.

(** *** Library packages *)

(** The first component of a dotted module path. *)
Fixpoint root_package (m : string) : string :=
  match m with
  | EmptyString => EmptyString
  | String c m' =>
      if Ascii.eqb c "." then EmptyString else String c (root_package m')
  end.

Definition origin_package (o : origin) : option string :=
  match o with
  | Imported m _ => Some (root_package m)
  | _ => None
  end.

Definition package_name (o : origin) : string :=
  match origin_package o with
  | Some p => p
  | None => EmptyString
  end.

(** The analysed library. *)
Definition from_gammapy (o : origin) : bool :=
  match origin_package o with
  | Some p => String.eqb p "gammapy"
  | None => false
  end.

(** Python's own [warnings] module. *)
Definition standard_library : list string := ["warnings"].

Definition third_party (o : origin) : bool :=
  match origin_package o with
  | Some p => negb (String.eqb p "gammapy") && negb (mem p standard_library)
  | None => false
  end.

(** A name of the public API does not start with an underscore. *)
Definition is_public (n : string) : bool := negb (String.prefix "_" n).

(** *** The operations the notebooks show *)

Inductive operation : Type :=
| ReadDataStore        (* reading a file path into a data store object *)
| CreateMapDataset     (* creating an empty map dataset from a geometry *)
| RunMapDatasetMaker   (* running a maker to fill the maps *)
| RunSafeMaskMaker     (* running a safe-mask maker *)
| RunBackgroundMaker   (* running a background maker *)
| RunFit               (* running a fit routine on flux points *)
| WriteModels          (* serializing model collections to a file *)
| ReadModels.          (* and from a file *)

Definition operations : list operation :=
  [ReadDataStore; CreateMapDataset; RunMapDatasetMaker; RunSafeMaskMaker;
   RunBackgroundMaker; RunFit; WriteModels; ReadModels].

(** The class an origin names. *)
Definition origin_class (o : origin) : string :=
  match o with
  | Imported _ (Some n) => n
  | _ => EmptyString
  end.

Definition method_of (callee : list string) : string :=
  last callee EmptyString.

(** The operation a call performs, read off the method called and the class
    of the object it is called on. *)
Definition performs (op : operation) (c : list string * origin) : bool :=
  let (callee, o) := c in
  let m := method_of callee in
  let cls := origin_class o in
  (2 <=? List.length callee)%nat &&
  match op with
  | ReadDataStore => String.eqb m "from_dir" && String.eqb cls "DataStore"
  | CreateMapDataset => String.eqb m "create" && String.eqb cls "MapDataset"
  | RunMapDatasetMaker => String.eqb m "run" && String.eqb cls "MapDatasetMaker"
  | RunSafeMaskMaker => String.eqb m "run" && String.eqb cls "SafeMaskMaker"
  | RunBackgroundMaker =>
      String.eqb m "run" && ends_with "BackgroundMaker" cls
  | RunFit => String.eqb m "run" && String.eqb cls "Fit"
  | WriteModels => String.eqb m "write" && String.eqb cls "Models"
  | ReadModels => String.eqb m "read" && String.eqb cls "Models"
  end.

Definition performs_some (c : list string * origin) : bool :=
  existsb (fun op => performs op c) operations.

(** A fact shows an operation when one of its calls performs it; the fit
    must be given flux points, the store and the model files a file path,
    the empty dataset a geometry. *)
Definition shows (op : operation) (f : fact) : bool :=
  existsb (performs op) (f_calls f) &&
  match op with
  | RunFit => f_flux f
  | ReadDataStore | WriteModels | ReadModels =>
      negb (match stmt_lits (f_stmt f) with [] => true | _ => false end)
  | CreateMapDataset => has_word ["geom"] (f_stmt f)
  | _ => true
  end.

(** *** File paths *)

Fixpoint all_chars (p : ascii -> bool) (s : string) : bool :=
  match s with
  | EmptyString => true
  | String c s' => p c && all_chars p s'
  end.

(** The text after the last [sep] of [s], or all of [s]. *)
Fixpoint after_last (sep : ascii) (s : string) : string :=
  match s with
  | EmptyString => EmptyString
  | String c s' =>
      if Ascii.eqb c sep && negb (contains (String sep EmptyString) s')
      then s' else
      if contains (String sep EmptyString) s' then after_last sep s' else s
  end.

Definition last_component (p : string) : string := after_last "/" p.

(** The extension of a file name: the letters after its last dot. *)
Definition extension (p : string) : option string :=
  let name := last_component p in
  if contains "." name then
    let e := after_last "." name in
    if all_chars is_letter e && negb (String.eqb e EmptyString)
    then Some e else None
  else None.

(** A string literal is a file path when it has a directory separator, or
    no space and a file extension. *)
Definition is_path (s : string) : bool :=
  contains "/" s ||
  (negb (contains " " s) &&
   match extension s with Some _ => true | None => false end).










(** *** Flux points *)







(** *** Entries of the how-to page *)

Record entry : Type := { e_lines : list string }.

Definition is_header (l : string) : bool :=
  String.prefix ".. accordion-header::" l.
Definition is_footer (l : string) : bool :=
  String.prefix ".. accordion-footer::" l.

(** The lines between each header and the footer that closes it. *)
Fixpoint split_entries (cur : option (list string)) (ls : list string)
  : list entry :=
  match ls with
  | [] => match cur with Some e => [{| e_lines := e |}] | None => [] end
  | l :: rest =>
      match cur with
      | None =>
          if is_header l then split_entries (Some []) rest
          else split_entries None rest
      | Some e =>
          if is_footer l then {| e_lines := e |} :: split_entries None rest
          else split_entries (Some (e ++ [l])%list) rest
      end
  end.

Definition entries (ls : list string) : list entry := split_entries None ls.

(** The value of an option line such as [:title: ...] of an entry. *)
Fixpoint option_value (key : string) (ls : list string) : option string :=
  match ls with
  | [] => None
  | l :: rest =>
      let s := strip_left l in
      if String.prefix key s
      then Some (strip_left (String.substring (String.length key)
                               (String.length s - String.length key) s))
      else option_value key rest
  end.

Definition e_id (e : entry) : option string := option_value ":id:" (e_lines e).
Definition e_title (e : entry) : option string := option_value ":title:" (e_lines e).

Definition entry_facts (e : entry) : list fact := facts (Rst (e_lines e)).

(** *** Suppressing warnings *)

(** A call that sets a warnings filter to [ignore]. *)
Definition suppresses_warning (f : fact) : bool :=
  existsb (fun c => let m := method_of (fst c) in
                    (String.eqb m "simplefilter" || String.eqb m "filterwarnings")
                    && String.eqb (package_name (snd c)) "warnings")
          (f_calls f)
  && mem "ignore" (stmt_lits (f_stmt f)).

Definition shows_suppression (e : entry) : bool :=
  existsb suppresses_warning (entry_facts e).

(** The header of the block a statement is in: the nearest statement before
    it with a smaller indentation ([before] is most recent first). *)
Fixpoint enclosing (before : list fact) (k : nat) : option fact :=
  match before with
  | [] => None
  | f :: rest =>
      if (indent (f_stmt f) <? k)%nat then Some f else enclosing rest k
  end.

(** Each fact with the header of its block. *)
Fixpoint with_block (before : list fact) (fs : list fact)
  : list (fact * option fact) :=
  match fs with
  | [] => []
  | f :: rest =>
      (f, match indent (f_stmt f) with
          | 0 => None
          | k => enclosing before k
          end) :: with_block (f :: before) rest
  end.

(** A [with warnings.catch_warnings():] header. *)
Definition is_catch_warnings (f : fact) : bool :=
  next_is (is_word "with") (toks (f_stmt f)) &&
  existsb (fun c => String.eqb (join "." (fst c)) "warnings.catch_warnings"
                    && String.eqb (package_name (snd c)) "warnings")
          (f_calls f).

(** A suppression is local when it stands in the block of such a header. *)
Definition is_local (p : fact * option fact) : bool :=
  match snd p with
  | Some h => is_catch_warnings h
  | None => false
  end.

(** The suppressions of an entry, each with the header of its block. *)
Definition suppressions (e : entry) : list (fact * option fact) :=
  filter (fun p => suppresses_warning (fst p)) (with_block [] (entry_facts e)).

(** The warning categories a suppression names. *)
Definition suppressed_categories (f : fact) : list (string * origin) :=
  filter (fun u => ends_with "Warning" (fst u)) (f_uses f).

(** *** The same checks on the raw lines *)

Definition code_lines (d : document) : list string := concat (code_samples d).

Definition line_starts_with (starts : list string) (l : string) : bool :=
  existsb (fun k => String.prefix k (strip_left l)) starts.

Definition raw_defines (l : string) : bool :=
  line_starts_with ["def "; "class "; "async def "; "@"] l.

Definition raw_handles_errors (l : string) : bool :=
  line_starts_with ["try:"; "except"; "finally:"; "raise"; "assert "] l.

(** *** Kinds of source file *)

Definition is_rst (d : document) : bool :=
  match d with Rst _ => true | Notebook _ => false end.

Definition is_notebook (d : document) : bool :=
  match d with Notebook _ => true | Rst _ => false end.

(** A documentation page: a [.rst] file that holds a page. *)
Definition is_documentation_page (f : src_file) : bool :=
  ends_with ".rst" (path f) && forallb is_rst (documents f)
  && negb (match documents f with [] => true | _ => false end).

(** A notebook file: an [.ipynb] file that holds notebooks. *)
Definition is_notebook_file (f : src_file) : bool :=
  ends_with ".ipynb" (path f) && forallb is_notebook (documents f)
  && negb (match documents f with [] => true | _ => false end).

(** A document demonstrates the library when its code calls it. *)
Definition calls_gammapy (d : document) : bool :=
  existsb (fun c => from_gammapy (snd c)) (doc_calls d).

Definition doc_unbound (d : document) : list string :=
  flat_map f_unbound (facts d).


(** *** Checks

    A call that performs one of the operations goes to a public name of a
    gammapy module. *)
Definition library_call (c : list string * origin) : bool :=
  from_gammapy (snd c) && forallb is_public (tl (fst c))
  && is_public (origin_class (snd c)).


(** *** The claims in the form the specification states them *)



(** ** The library operations the documentation describes

    [SafeMaskMaker.run], [Dataset.stat_sum] and [Models.select] are gammapy
    code; the sources hold their call sites and the prose that says what
    they do.  Each model below follows that prose. *)

Module SafeMask.
Section Maker.

(** A pixel of the dataset geometry, the value a data map holds in a
    pixel, and an observation. *)
Variables pixel value observation : Type.

Definition Map (A : Type) : Type := pixel -> A.

(** The Makers notebook: the counts, exposure, background and IRF maps are
    bundled together in a [MapDataset]; a [mask_safe] can be defined, a map
    with [bool] data that says for each pixel whether it is included. *)
Record MapDataset : Type :=
  { counts : Map value;
    exposure : Map value;
    background : Map value;
    psf : Map value;
    edisp : Map value;
    mask_safe : option (Map bool) }.

(** The criteria of the [methods] argument. *)
Inductive method : Type :=
| aeff_default | aeff_max | edisp_bias | offset_max | bkg_peak.

(** The pixels each criterion keeps for a dataset and an observation; the
    notebook names the criteria and leaves their computation to the
    library. *)
Variable criterion : method -> MapDataset -> observation -> Map bool.

Record SafeMaskMaker : Type := { methods : list method }.

(** Multiple methods can be combined: a pixel is safe when every method
    keeps it. *)
Definition make_mask (m : SafeMaskMaker) (d : MapDataset) (obs : observation)
  : Map bool :=
  fun p => forallb (fun k => criterion k d obs p) (methods m).

(** Modelled from the spec: [SafeMaskMaker.run] (gammapy.makers, not among
    the sources), after the Makers notebook: the maker does not modify any
    data, but only defines the [mask_safe] attribute of the dataset. *)
Definition run (m : SafeMaskMaker) (d : MapDataset) (obs : observation)
  : MapDataset :=
  {| counts := counts d;
     exposure := exposure d;
     background := background d;
     psf := psf d;
     edisp := edisp d;
     mask_safe := Some (make_mask m d obs) |}.

End Maker.
End SafeMask.

Module FitStatistic.

Local Open Scope R_scope.

(** Modelled from the spec: [Dataset.stat_sum] (gammapy.datasets, not
    among the sources), after the how-to entry on source significance: the
    fit statistic is defined as [S = - 2 * log(L)] for likelihood [L].  The
    model is over the real numbers, as the formula is. *)
Definition stat_sum (L : R) : R := - 2 * ln L.

(** The test statistic of the entry: call [stat_sum] for the two
    hypotheses and take the difference. *)
Definition TS (L0 L1 : R) : R := stat_sum L0 - stat_sum L1.

(** The likelihood-ratio statistic of a hypothesis test of [H0] (likelihood
    [L0]) against [H1] (likelihood [L1]). *)
Definition likelihood_ratio (L0 L1 : R) : R := - 2 * ln (L0 / L1).

End FitStatistic.

Module Selection.

(** A model of a collection: its name and the datasets it is attached to.
    The Modelling notebook: to attach a model on a particular dataset one
    specifies [datasets_names]; otherwise, by default, the model is applied
    to all the datasets. *)
Record SkyModel : Type :=
  { name : string; datasets_names : option (list string) }.

Definition Models : Type := list SkyModel.

(** The conditions the notebook passes to [select] and [selection_mask]. *)
Inductive condition : Type :=
| name_substring (s : string)
| on_dataset (d : string).      (* [datasets_names=d] *)

Definition applied_on (m : SkyModel) (d : string) : bool :=
  match datasets_names m with
  | None => true
  | Some ds => mem d ds
  end.

Definition satisfies (m : SkyModel) (c : condition) : bool :=
  match c with
  | name_substring s => contains s (name m)
  | on_dataset d => applied_on m d
  end.

(** Modelled from the spec: [Models.selection_mask] (gammapy.modeling, not
    among the sources), after the Modelling notebook: it generates a
    boolean array, one entry per model, that can be used for selection; the
    entry of a model is the AND of the conditions on it. *)
Definition selection_mask (ms : Models) (conds : list condition) : list bool :=
  map (fun m => fold_left (fun b c => b && satisfies m c) conds true) ms.

(** Indexing a collection with a boolean array keeps the models at the
    true entries. *)
Fixpoint index_mask (ms : Models) (mask : list bool) : Models :=
  match ms, mask with
  | m :: ms', b :: mask' =>
      if b then m :: index_mask ms' mask' else index_mask ms' mask'
  | _, _ => []
  end.

(** Modelled from the spec: [Models.select] (gammapy.modeling, not among
    the sources), after the Modelling notebook: it selects all models
    satisfying a list of conditions, through the mask of the conditions. *)
Definition select (ms : Models) (conds : list condition) : Models :=
  index_mask ms (selection_mask ms conds).

(** The [|] of two boolean arrays, entry by entry. *)
Fixpoint mask_or (a b : list bool) : list bool :=
  match a, b with
  | x :: a', y :: b' => (x || y) :: mask_or a' b'
  | _, _ => []
  end.

(** The two selections of the notebook. *)
Definition select_and (ms : Models) (dataset sub : string) : Models :=
  select ms [on_dataset dataset; name_substring sub].

Definition select_or (ms : Models) (sub1 sub2 : string) : Models :=
  index_mask ms (mask_or (selection_mask ms [name_substring sub1])
                         (selection_mask ms [name_substring sub2])).

End Selection.

(** ** Further structure of the samples *)

(** *** Entries of the page *)

(** Headers and footers alternate: no entry opens inside another and none
    is left open. *)
Fixpoint balanced (inside : bool) (ls : list string) : bool :=
  match ls with
  | [] => negb inside
  | l :: rest =>
      if is_header l then negb inside && balanced true rest
      else if is_footer l then inside && balanced false rest
      else balanced inside rest
  end.

Definition e_link (e : entry) : option string :=
  option_value ":link:" (e_lines e).

Fixpoint distinct (l : list string) : bool :=
  match l with
  | [] => true
  | x :: r => negb (mem x r) && distinct r
  end.

(** The identifiers of the entries that have one. *)
Definition entry_ids (es : list entry) : list string :=
  flat_map (fun e => match e_id e with Some i => [i] | None => [] end) es.

Definition has_value (o : option string) : bool :=
  match o with
  | Some s => negb (String.eqb s EmptyString)
  | None => false
  end.

(** The page a link points to: the link up to its [#] anchor. *)
Fixpoint before_anchor (s : string) : string :=
  match s with
  | EmptyString => EmptyString
  | String c s' =>
      if Ascii.eqb c "#" then EmptyString else String c (before_anchor s')
  end.

(** A link into the tutorials tree: a relative path under [../tutorials/]
    to an [.html] page. *)
Definition is_tutorial_link (l : string) : bool :=
  String.prefix "../tutorials/" l && ends_with ".html" (before_anchor l).

(** An entry has an identifier, a title and, if any, a link into the
    tutorials. *)
Definition entry_ok (e : entry) : bool :=
  has_value (e_id e) && has_value (e_title e) &&
  match e_link e with
  | Some l => is_tutorial_link l
  | None => true
  end.

(** *** Files read and written *)

Inductive io : Type := Reads | Writes.

Record file_event : Type :=
  { ev_io : io; ev_path : string; ev_class : string }.

(** A name bound to a path by a plain assignment, [filename = "..."]. *)
Definition path_binding (f : fact) : list (string * string) :=
  match f_form f with
  | Assign [x] [Lit p] => if is_path p then [(x, p)] else []
  | _ => []
  end.

Fixpoint lookup_path (e : list (string * string)) (x : string) : option string :=
  match e with
  | [] => None
  | (y, p) :: r => if String.eqb x y then Some p else lookup_path r x
  end.

(** The paths a statement hands to its calls: its path literals and the
    paths of the names it reads. *)
Definition stmt_paths (e : list (string * string)) (f : fact) : list string :=
  match path_binding f with
  | _ :: _ => []
  | [] =>
      (filter is_path (stmt_lits (f_stmt f)) ++
       flat_map (fun u => match lookup_path e (fst u) with
                          | Some p => [p]
                          | None => []
                          end) (f_uses f))%list
  end.

(** A [write] call writes the file; any other call given a path reads it. *)
Definition io_of (c : list string * origin) : io :=
  if String.eqb (method_of (fst c)) "write" then Writes else Reads.

Definition events_of (e : list (string * string)) (f : fact) : list file_event :=
  match f_calls f with
  | c :: _ =>
      map (fun p => {| ev_io := io_of c; ev_path := p;
                       ev_class := origin_class (snd c) |})
          (stmt_paths e f)
  | [] => []
  end.

(** The file events of some facts, in order. *)
Fixpoint file_events (e : list (string * string)) (fs : list fact)
  : list file_event :=
  match fs with
  | [] => []
  | f :: rest =>
      (events_of e f ++ file_events (path_binding f ++ e) rest)%list
  end.

Definition doc_events (d : document) : list file_event :=
  file_events [] (facts d).

(** A path under the data directory of the library. *)
Definition is_data_path (p : string) : bool :=
  String.prefix "$GAMMAPY_DATA/" p.

Definition event_eqb (a b : file_event) : bool :=
  match ev_io a, ev_io b with
  | Reads, Reads | Writes, Writes => true
  | _, _ => false
  end && String.eqb (ev_path a) (ev_path b)
  && String.eqb (ev_class a) (ev_class b).

Definition written (p cls : string) : file_event :=
  {| ev_io := Writes; ev_path := p; ev_class := cls |}.

(** Every read of a path outside the data directory comes after a write of
    that path by an object of the same class. *)
Fixpoint reads_follow_writes (before : list file_event) (evs : list file_event)
  : bool :=
  match evs with
  | [] => true
  | ev :: rest =>
      match ev_io ev with
      | Writes => true
      | Reads =>
          is_data_path (ev_path ev) ||
          existsb (event_eqb (written (ev_path ev) (ev_class ev))) before
      end && reads_follow_writes (ev :: before) rest
  end.

(** A path read is under the data directory or a bare file name; a path
    written is a bare file name. *)
Definition event_ok (ev : file_event) : bool :=
  match ev_io ev with
  | Reads => is_data_path (ev_path ev) || negb (contains "/" (ev_path ev))
  | Writes => negb (contains "/" (ev_path ev))
  end.

(** The value of a keyword argument: the token after [w=]. *)
Fixpoint kwarg_value (w : string) (ts : list token) : option token :=
  match ts with
  | Word x :: rest =>
      match rest with
      | Sym c :: v :: _ =>
          if String.eqb x w && Ascii.eqb c "=" then Some v
          else kwarg_value w rest
      | _ => kwarg_value w rest
      end
  | _ :: rest => kwarg_value w rest
  | [] => None
  end.

Definition is_write (f : fact) : bool :=
  existsb (fun c => String.eqb (method_of (fst c)) "write") (f_calls f).

Definition overwrites (f : fact) : bool :=
  match kwarg_value "overwrite" (toks (f_stmt f)) with
  | Some t => is_word "True" t
  | None => false
  end.

(** *** Loops *)

(** A fact of no statement, for positions past the end of a list. *)
Definition no_fact : fact :=
  {| f_stmt := {| indent := 0; toks := [] |}; f_form := Other [];
     f_calls := []; f_uses := []; f_flux := false |}.


(** The facts of a block: those indented deeper than its header. *)
Fixpoint take_body (k : nat) (fs : list fact) : list fact :=
  match fs with
  | [] => []
  | f :: rest =>
      if (k <? indent (f_stmt f))%nat then f :: take_body k rest else []
  end.

(** Each [for] loop with its body. *)
Fixpoint loops (fs : list fact) : list (fact * list fact) :=
  match fs with
  | [] => []
  | f :: rest =>
      (if next_is (is_word "for") (toks (f_stmt f))
       then [(f, take_body (indent (f_stmt f)) rest)] else [])
      ++ loops rest
  end.

(** The tokens after the first [m(]. *)
Fixpoint after_call (m : string) (ts : list token) : list token :=
  match ts with
  | [] => []
  | t :: rest =>
      if is_word m t && next_is (is_sym "(") rest then tl rest
      else after_call m rest
  end.

(** A step of a reduction chain, [target = maker.run(input, ...)]. *)
Record run_step : Type :=
  { target : string; maker_class : string; input : string }.

Definition step_of (f : fact) : list run_step :=
  match f_form f, f_calls f with
  | Assign [t] rhs, (([_; m], o) :: _) =>
      if String.eqb m "run" then
        match after_call "run" rhs with
        | Word a :: _ =>
            [{| target := t; maker_class := origin_class o; input := a |}]
        | _ => []
        end
      else []
  | _, _ => []
  end.

Definition run_steps (body : list fact) : list run_step :=
  flat_map step_of body.

(** Each step takes what the step before it produced. *)
Fixpoint threaded (steps : list run_step) : bool :=
  match steps with
  | s1 :: ((s2 :: _) as rest) =>
      String.eqb (input s2) (target s1) && threaded rest
  | _ => true
  end.

Definition reads_name (x : string) (f : fact) : bool :=
  mem x (map fst (f_uses f)).

Definition last_target (steps : list run_step) : option string :=
  match rev steps with
  | s :: _ => Some (target s)
  | [] => None
  end.

(** The last statement of the body is no step and reads the last result. *)
Definition consumes_last (body : list fact) : bool :=
  match last_target (run_steps body), rev body with
  | Some t, f :: _ =>
      reads_name t f && match step_of f with [] => true | _ => false end
  | _, _ => false
  end.

(** A reduction loop: its first step is a dataset maker, the steps are
    threaded, and the last statement of the body takes the last result. *)
Definition chain_ok (body : list fact) : bool :=
  match run_steps body with
  | [] => true
  | s :: _ =>
      ends_with "DatasetMaker" (maker_class s)
      && threaded (run_steps body) && consumes_last body
  end.

(** *** Imports *)





(** *** Fits *)










(** * Properties *)

(** ** The reading functions *)

Lemma prefix_append : forall p s, String.prefix p (p ++ s) = true.
Proof.
  induction p as [|c p IH]; intros s; simpl.
  - destruct s; reflexivity.
  - destruct (ascii_dec c c) as [_|ne]; [apply IH | contradiction].
Qed.

Lemma prefix_split : forall p s,
  String.prefix p s = true -> exists r, s = p ++ r.
Proof.
  induction p as [|c p IH]; intros s H.
  - exists s. reflexivity.
  - destruct s as [|c' s]; simpl in H; [discriminate|].
    destruct (ascii_dec c c') as [e|_]; [|discriminate].
    destruct (IH s H) as [r Hr]. exists r. subst. reflexivity.
Qed.

Lemma contains_unfold : forall pat s,
  contains pat s =
  String.prefix pat s ||
  match s with
  | EmptyString => false
  | String _ s' => contains pat s'
  end.
Proof. intros pat s; destruct s; reflexivity. Qed.

(** [contains] decides occurrence as a substring. *)
Lemma contains_spec : forall pat s,
  contains pat s = true <-> exists a b, s = a ++ pat ++ b.
Proof.
  intros pat s; split.
  - induction s as [|c s IH]; rewrite contains_unfold; intros H;
      apply orb_true_iff in H as [H|H].
    + apply prefix_split in H as [r Hr]. exists EmptyString, r. exact Hr.
    + discriminate.
    + apply prefix_split in H as [r Hr]. exists EmptyString, r. exact Hr.
    + destruct (IH H) as [a [b Hab]].
      exists (String c a), b. simpl. rewrite Hab. reflexivity.
  - intros [a [b Hab]]. subst s.
    induction a as [|c a IH].
    + change (EmptyString ++ pat ++ b) with (pat ++ b).
      rewrite contains_unfold. apply orb_true_iff. left. apply prefix_append.
    + change (String c a ++ pat ++ b) with (String c (a ++ pat ++ b)).
      rewrite contains_unfold. apply orb_true_iff. right. exact IH.
Qed.

(** ** Lists of checks *)

Lemma all_documents_eq :
  all_documents = [howto; modelling; makers; sed_fitting].
Proof. reflexivity. Qed.

Lemma none_In : forall (A : Type) (p : A -> bool) (l : list A),
  existsb p l = false -> forall x, In x l -> p x = false.
Proof.
  intros A p l H x Hx.
  destruct (p x) eqn:E; [|reflexivity].
  assert (existsb p l = true) as C by (apply existsb_exists; eauto).
  congruence.
Qed.

Lemma all_In : forall (A : Type) (p : A -> bool) (l : list A),
  forallb p l = true -> forall x, In x l -> p x = true.
Proof.
  intros A p l H x Hx. rewrite forallb_forall in H. auto.
Qed.

(** A property of every document, document by document. *)
Lemma every_document : forall P : document -> Prop,
  P howto -> P modelling -> P makers -> P sed_fitting ->
  forall d, In d all_documents -> P d.
Proof.
  intros P H1 H2 H3 H4 d Hd. rewrite all_documents_eq in Hd. simpl in Hd.
  destruct Hd as [<-|[<-|[<-|[<-|[]]]]]; assumption.
Qed.

Ltac per_document :=
  let d := fresh "d" in
  let H := fresh "H" in
  intros d H; pattern d; revert d H; apply every_document.

Ltac decide_by_evaluation := vm_compute; reflexivity.

(** ** Shared facts about the samples *)

(** What is read: the page has 19 entries and 2 code samples; the notebooks
    have 51, 11 and 20 code cells; the statements number 9, 95, 61 and 67. *)
Lemma samples_read :
  List.length (entries howto_rst) = 19 /\
  map (fun d => List.length (code_samples d)) all_documents = [2; 51; 11; 20] /\
  map (fun d => List.length (doc_stmts d)) all_documents = [9; 95; 61; 67].
Proof. repeat split; decide_by_evaluation. Qed.

(** No statement of any sample defines a function or a class. *)
Lemma no_definition_statement : forall d,
  In d all_documents -> existsb defines (doc_stmts d) = false.
Proof. per_document; decide_by_evaluation. Qed.

(** No line of any sample starts a definition. *)
Lemma no_definition_line : forall d,
  In d all_documents -> existsb raw_defines (code_lines d) = false.
Proof. per_document; decide_by_evaluation. Qed.

(** Every name the samples read is bound. *)
Lemma no_unbound_name : forall d,
  In d all_documents -> doc_unbound d = [].
Proof. per_document; decide_by_evaluation. Qed.

(** ** The lexer loses nothing *)

Lemma append_assoc : forall a b c : string, (a ++ b) ++ c = a ++ (b ++ c).
Proof.
  induction a as [|x a IH]; intros b c; simpl; [reflexivity|].
  rewrite IH. reflexivity.
Qed.

Lemma append_empty : forall a : string, a ++ EmptyString = a.
Proof.
  induction a as [|x a IH]; simpl; [reflexivity|]. rewrite IH. reflexivity.
Qed.

(** In code the first piece is code; in a string it is that string. *)
Inductive starts_in : mode -> list piece -> string -> Prop :=
| starts_code : forall (t : string) (r : list piece) (s : string),
    (t ++ unlex r)%string = s -> starts_in InCode (Code t :: r) s
| starts_str : forall (q : ascii) (cl : bool) (t : string) (r : list piece)
                      (s : string),
    (t ++ (if cl then String q EmptyString else EmptyString) ++ unlex r)%string
    = s ->
    starts_in (InStr q) (Str q cl t :: r) s.

Lemma starts_in_push : forall m ps s c,
  starts_in m ps s -> starts_in m (push c ps) (String c s).
Proof.
  intros m ps s c H. destruct H; simpl; constructor; simpl; congruence.
Qed.

(** The text of the pieces: the text read, after the quote that opened the
    string the reading started in. *)
Lemma starts_in_unlex : forall m ps s,
  starts_in m ps s ->
  unlex ps = match m with InCode => s | InStr q => String q s end.
Proof.
  intros m ps s H. destruct H as [t r s E|q cl t r s E]; simpl.
  - exact E.
  - rewrite append_assoc, E. reflexivity.
Qed.

Lemma lex_starts_in : forall n s m,
  String.length s <= n -> starts_in m (lex m s) s.
Proof.
  induction n as [|n IH]; intros s m Hn.
  - destruct s; [|simpl in Hn; lia].
    destruct m; simpl; constructor; reflexivity.
  - destruct s as [|c s]; [destruct m; simpl; constructor; reflexivity|].
    simpl in Hn. destruct m as [|q]; simpl.
    + destruct (Ascii.eqb c "#") eqn:Eh.
      * apply Ascii.eqb_eq in Eh. subst c. constructor. simpl.
        rewrite append_empty. reflexivity.
      * destruct (is_quote c) eqn:Eq.
        -- constructor. simpl.
           apply (starts_in_unlex (InStr c)). apply IH. lia.
        -- apply starts_in_push. apply IH. lia.
    + destruct (Ascii.eqb c q) eqn:Ec.
      * apply Ascii.eqb_eq in Ec. subst c. constructor. simpl.
        f_equal. apply (starts_in_unlex InCode). apply IH. lia.
      * destruct (Ascii.eqb c "\") eqn:Eb.
        -- destruct s as [|d s].
           ++ simpl. constructor. reflexivity.
           ++ do 2 apply starts_in_push. apply IH. simpl in Hn. lia.
        -- apply starts_in_push. apply IH. lia.
Qed.

(** The pieces of a line, put together again, are the line. *)
Lemma unlex_lex_line : forall s, unlex (lex_line s) = s.
Proof.
  intros s. unfold lex_line.
  apply (starts_in_unlex InCode).
  apply (lex_starts_in (String.length s)). apply le_n.
Qed.

(** The statements of some lines hold the tokens of the lines, all of them
    and in order. *)
Lemma split_stmts_tokens : forall ls depth cur,
  flat_map toks (split_stmts depth cur ls)
  = (match cur with Some st => toks st | None => [] end
     ++ flat_map line_tokens ls)%list.
Proof.
  induction ls as [|l ls IH]; intros depth cur; simpl.
  - destruct cur; simpl; rewrite ?app_nil_r; reflexivity.
  - destruct cur as [st|].
    + destruct (_ =? 0)%nat; simpl; rewrite IH; simpl;
        rewrite ?app_nil_r, <- ?app_assoc; reflexivity.
    + destruct (line_tokens l) as [|t ts] eqn:E.
      * rewrite IH. reflexivity.
      * destruct (_ =? 0)%nat; simpl; rewrite IH; simpl; reflexivity.
Qed.

Lemma statements_tokens : forall ls,
  flat_map toks (statements ls) = flat_map line_tokens ls.
Proof. intros ls. unfold statements. rewrite split_stmts_tokens. reflexivity. Qed.

(** ** The operations shown are calls into the library *)

Lemma operations_shown : forall op,
  existsb (fun d => existsb (shows op) (facts d)) all_documents = true.
Proof. intros op; destruct op; decide_by_evaluation. Qed.

Lemma operations_are_single_calls : forall d,
  In d all_documents ->
  forallb (fun f => forallb (fun op =>
             implb (shows op f)
                   (List.length (filter (performs op) (f_calls f)) =? 1)%nat)
             operations)
          (facts d) = true.
Proof. per_document; decide_by_evaluation. Qed.

Lemma every_operation_listed : forall op, In op operations.
Proof. intros op; destruct op; simpl; tauto. Qed.

Lemma operations_go_to_library : forall d,
  In d all_documents ->
  forallb (fun c => implb (performs_some c) (library_call c)) (doc_calls d)
  = true.
Proof. per_document; decide_by_evaluation. Qed.

(** C1. Each operation of the list (reading a path into a data store,
    creating an empty map dataset from a geometry, running the map dataset
    maker, the safe-mask maker, a background maker, the fit on flux points,
    writing and reading a model collection) is shown by some statement of
    the sources; a statement that shows one holds a single call that
    performs it; every call that performs one of them is a call of a public
    name imported from a gammapy module; and no statement or line of any
    sample defines a function or a class, so none of them has an
    implementation in the files. *)
Theorem shown_operations_are_library_calls :
  (forall op, exists d f,
      In d all_documents /\ In f (facts d) /\ shows op f = true) /\
  (forall d f op, In d all_documents -> In f (facts d) ->
      shows op f = true ->
      List.length (filter (performs op) (f_calls f)) = 1) /\
  (forall d c, In d all_documents -> In c (doc_calls d) ->
      performs_some c = true -> library_call c = true) /\
  (forall d st, In d all_documents -> In st (doc_stmts d) ->
      defines st = false) /\
  (forall d l, In d all_documents -> In l (code_lines d) ->
      raw_defines l = false).
Proof.
  repeat split.
  - intros op.
    pose proof (operations_shown op) as H.
    apply existsb_exists in H as [d [Hd H]].
    apply existsb_exists in H as [f [Hf H]].
    exists d, f. auto.
  - intros d f op Hd Hf Hs.
    pose proof (all_In _ _ _ (all_In _ _ _ (operations_are_single_calls d Hd)
                                f Hf) op (every_operation_listed op)) as H.
    simpl in H. rewrite Hs in H. apply Nat.eqb_eq. exact H.
  - intros d c Hd Hc Hp.
    pose proof (all_In _ _ _ (operations_go_to_library d Hd) c Hc) as H.
    simpl in H. rewrite Hp in H. exact H.
  - intros d st Hd. apply none_In. apply no_definition_statement, Hd.
  - intros d l Hd. apply none_In. apply no_definition_line, Hd.
Qed.

(** ** Interfaces: file paths and call sites *)











(** ** Concurrency *)

Lemma only_n_jobs : forall d,
  In d all_documents ->
  forallb (fun st => forallb (fun w => implb (is_concurrency_word w)
                                             (String.eqb w "n_jobs"))
                             (stmt_words st))
          (doc_stmts d) = true.
Proof. per_document; decide_by_evaluation. Qed.

Lemma no_scheduling_prose : forall d,
  In d all_documents -> existsb defines_scheduling (all_lines d) = false.
Proof. per_document; decide_by_evaluation. Qed.

(** C3. No statement of any sample uses a concurrency keyword, module,
    class or option other than [n_jobs]; [n_jobs] is mentioned by exactly
    one document, the Makers notebook, whose code holds it in exactly one
    statement, as a keyword argument set to the number 1 in the call of
    [DatasetsMaker] imported from gammapy.makers; and no line of any
    document, prose or code, speaks of scheduling, synchronization,
    cancellation, threads or workers. *)
Theorem n_jobs_is_the_only_concurrency_option :
  (forall d st w, In d all_documents -> In st (doc_stmts d) ->
      In w (stmt_words st) -> is_concurrency_word w = true -> w = "n_jobs") /\
  filter (mentions "n_jobs") all_documents = [makers] /\
  (exists f,
      filter (fun g => has_word ["n_jobs"] (f_stmt g))
             (flat_map facts all_documents) = [f] /\
      kwarg_number "n_jobs" (toks (f_stmt f)) = Some "1" /\
      f_calls f = [(["DatasetsMaker"],
                    Imported "gammapy.makers" (Some "DatasetsMaker"))]) /\
  (forall d l, In d all_documents -> In l (all_lines d) ->
      defines_scheduling l = false).
Proof.
  split; [|split; [|split]].
  - intros d st w Hd Hst Hw Hc.
    pose proof (all_In _ _ _ (all_In _ _ _ (only_n_jobs d Hd) st Hst) w Hw) as H.
    simpl in H. rewrite Hc in H. apply String.eqb_eq. exact H.
  - decide_by_evaluation.
  - eexists. split; [decide_by_evaluation|]. split; decide_by_evaluation.
  - intros d l Hd. apply none_In. apply no_scheduling_prose, Hd.
Qed.

(** ** The how-to entry on warnings *)

(** C4. Exactly one entry of the how-to page shows a suppression, the entry
    titled "Suppress warnings"; it shows one suppression, a
    [warnings.simplefilter] call with [ignore]; the call stands in the
    block of a [with warnings.catch_warnings():] header, so it is local;
    the category it names is [VerifyWarning], imported from
    astropy.io.fits.verify, a third-party package. *)
Theorem one_entry_suppresses_a_third_party_warning :
  exists e f h,
    filter shows_suppression (entries howto_rst) = [e] /\
    e_title e = Some "Suppress warnings" /\
    suppressions e = [(f, Some h)] /\
    is_catch_warnings h = true /\
    is_local (f, Some h) = true /\
    suppressed_categories f
      = [("VerifyWarning",
          Imported "astropy.io.fits.verify" (Some "VerifyWarning"))] /\
    third_party (Imported "astropy.io.fits.verify" (Some "VerifyWarning"))
      = true.
Proof.
  do 3 eexists.
  split; [decide_by_evaluation|].
  split; [decide_by_evaluation|].
  split; [decide_by_evaluation|].
  repeat split; decide_by_evaluation.
Qed.

(** ** Error handling *)

Lemma no_error_statement : forall d,
  In d all_documents -> existsb handles_errors (doc_stmts d) = false.
Proof. per_document; decide_by_evaluation. Qed.

Lemma no_error_line : forall d,
  In d all_documents -> existsb raw_handles_errors (code_lines d) = false.
Proof. per_document; decide_by_evaluation. Qed.

(** C5. No statement of any code sample, in the how-to page or in a
    notebook cell, uses [try], [except], [finally], [raise] or [assert] or
    names an exception class, and no line of a sample starts with one of
    these keywords. *)
Theorem no_error_handling :
  forall d, In d all_documents ->
    (forall st, In st (doc_stmts d) -> handles_errors st = false) /\
    (forall l, In l (code_lines d) -> raw_handles_errors l = false).
Proof.
  intros d Hd. split.
  - apply none_In. apply no_error_statement, Hd.
  - apply none_In. apply no_error_line, Hd.
Qed.

Lemma no_error_handling_in_howto :
  (forall st, In st (doc_stmts howto) -> handles_errors st = false) /\
  (forall l, In l (code_lines howto) -> raw_handles_errors l = false).
Proof.
  apply (no_error_handling howto).
  rewrite all_documents_eq. simpl. auto.
Defined.

(** ** Flux points *)





(** ** Kinds of source *)

Lemma files_are_pages_or_notebooks :
  forallb (fun f => is_documentation_page f || is_notebook_file f) corpus
  = true.
Proof. decide_by_evaluation. Qed.

Lemma documents_call_gammapy : forall d,
  In d all_documents -> calls_gammapy d = true.
Proof. per_document; decide_by_evaluation. Qed.

Lemma documents_of_corpus : forall f d,
  In f corpus -> In d (documents f) -> In d all_documents.
Proof. intros f d Hf Hd. unfold all_documents. apply in_flat_map. eauto. Qed.

(** C7. Every source file is a documentation page (an [.rst] file holding
    a page) or a notebook file (an [.ipynb] file holding notebooks); every
    document in it calls the gammapy library; no statement and no line of
    its samples defines a function or a class; and every name its code reads
    is bound by an import, a builtin or an assignment. *)
Theorem sources_are_documentation :
  forall f, In f corpus ->
    (is_documentation_page f = true \/ is_notebook_file f = true) /\
    (forall d, In d (documents f) ->
       calls_gammapy d = true /\
       (forall st, In st (doc_stmts d) -> defines st = false) /\
       (forall l, In l (code_lines d) -> raw_defines l = false) /\
       doc_unbound d = []).
Proof.
  intros f Hf. split.
  - pose proof (all_In _ _ _ files_are_pages_or_notebooks f Hf) as H.
    apply orb_true_iff in H. exact H.
  - intros d Hd. pose proof (documents_of_corpus f d Hf Hd) as Hall.
    split; [apply documents_call_gammapy, Hall|].
    split; [apply none_In, no_definition_statement, Hall|].
    split; [apply none_In, no_definition_line, Hall|].
    apply no_unbound_name, Hall.
Qed.

Lemma sources_are_documentation_at_howto_file :
  (is_documentation_page howto_file = true \/
   is_notebook_file howto_file = true) /\
  (forall d, In d (documents howto_file) ->
     calls_gammapy d = true /\
     (forall st, In st (doc_stmts d) -> defines st = false) /\
     (forall l, In l (code_lines d) -> raw_defines l = false) /\
     doc_unbound d = []).
Proof.
  apply (sources_are_documentation howto_file).
  unfold corpus. simpl. auto.
Defined.

(** ** The safe-mask maker *)

(** C8. For every dataset, observation and maker, [SafeMaskMaker.run]
    leaves [counts], [exposure], [background], [psf] and [edisp] as they
    were and defines [mask_safe] (to the mask of its methods). *)
Theorem safe_mask_maker_only_defines_mask_safe :
  forall (pixel value observation : Type)
         (criterion : SafeMask.method ->
                      SafeMask.MapDataset pixel value -> observation ->
                      SafeMask.Map pixel bool)
         (m : SafeMask.SafeMaskMaker)
         (d : SafeMask.MapDataset pixel value) (obs : observation),
    SafeMask.counts _ _ (SafeMask.run _ _ _ criterion m d obs)
      = SafeMask.counts _ _ d /\
    SafeMask.exposure _ _ (SafeMask.run _ _ _ criterion m d obs)
      = SafeMask.exposure _ _ d /\
    SafeMask.background _ _ (SafeMask.run _ _ _ criterion m d obs)
      = SafeMask.background _ _ d /\
    SafeMask.psf _ _ (SafeMask.run _ _ _ criterion m d obs)
      = SafeMask.psf _ _ d /\
    SafeMask.edisp _ _ (SafeMask.run _ _ _ criterion m d obs)
      = SafeMask.edisp _ _ d /\
    SafeMask.mask_safe _ _ (SafeMask.run _ _ _ criterion m d obs)
      = Some (SafeMask.make_mask _ _ _ criterion m d obs).
Proof.
  intros. unfold SafeMask.run. simpl. repeat split.
Qed.

(** The mask keeps a pixel exactly when every method of the maker keeps it. *)
Lemma make_mask_all_methods :
  forall (pixel value observation : Type) criterion
         (m : SafeMask.SafeMaskMaker)
         (d : SafeMask.MapDataset pixel value) (obs : observation) (p : pixel),
    SafeMask.make_mask pixel value observation criterion m d obs p = true <->
    forall k, In k (SafeMask.methods m) -> criterion k d obs p = true.
Proof.
  intros. unfold SafeMask.make_mask. apply forallb_forall.
Qed.

(** Running the maker again on its result changes nothing the first run
    left alone. *)
Lemma safe_mask_maker_twice :
  forall (pixel value observation : Type) criterion
         (m1 m2 : SafeMask.SafeMaskMaker)
         (d : SafeMask.MapDataset pixel value) (obs : observation),
    SafeMask.counts _ _
      (SafeMask.run _ _ _ criterion m2
         (SafeMask.run _ _ _ criterion m1 d obs) obs)
    = SafeMask.counts _ _ d.
Proof. intros. reflexivity. Qed.

(** ** The fit statistic *)

Section Statistic.
Import FitStatistic.
Local Open Scope R_scope.

Lemma ln_quotient : forall x y : R, 0 < x -> 0 < y -> ln (x / y) = ln x - ln y.
Proof.
  intros x y Hx Hy. unfold Rdiv.
  rewrite ln_mult; [|assumption|apply Rinv_0_lt_compat; assumption].
  rewrite ln_Rinv by assumption. lra.
Qed.

(** For nested hypotheses the fitted likelihood of the larger model is at
    least that of the smaller, and the test statistic is not negative. *)
Lemma TS_nonnegative : forall L0 L1 : R,
  0 < L0 -> L0 <= L1 -> 0 <= TS L0 L1.
Proof.
  intros L0 L1 H0 Hle. unfold TS, stat_sum.
  destruct Hle as [Hlt|Heq].
  - pose proof (ln_increasing L0 L1 H0 Hlt). lra.
  - subst. lra.
Qed.

End Statistic.

(** C9. With the fit statistic [S = -2 * log(L)], the test statistic of two
    hypotheses with likelihoods [L0] and [L1], the likelihood-ratio
    statistic [-2 * log(L0 / L1)], is the difference of the two statistic
    values, [TS = S_0 - S_1]. *)
Theorem test_statistic_is_difference_of_fit_statistics :
  forall L0 L1 : R, (0 < L0)%R -> (0 < L1)%R ->
    FitStatistic.stat_sum L0 = (- 2 * ln L0)%R /\
    FitStatistic.stat_sum L1 = (- 2 * ln L1)%R /\
    FitStatistic.likelihood_ratio L0 L1
      = (FitStatistic.stat_sum L0 - FitStatistic.stat_sum L1)%R /\
    FitStatistic.TS L0 L1 = FitStatistic.likelihood_ratio L0 L1.
Proof.
  intros L0 L1 H0 H1.
  assert (FitStatistic.likelihood_ratio L0 L1
          = (FitStatistic.stat_sum L0 - FitStatistic.stat_sum L1)%R) as E.
  { unfold FitStatistic.likelihood_ratio, FitStatistic.stat_sum.
    rewrite ln_quotient by assumption. lra. }
  repeat split; try reflexivity; [exact E | unfold FitStatistic.TS; lra].
Qed.

Lemma test_statistic_of_likelihoods_1_and_2 :
  FitStatistic.stat_sum 1 = (- 2 * ln 1)%R /\
  FitStatistic.stat_sum 2 = (- 2 * ln 2)%R /\
  FitStatistic.likelihood_ratio 1 2
    = (FitStatistic.stat_sum 1 - FitStatistic.stat_sum 2)%R /\
  FitStatistic.TS 1 2 = FitStatistic.likelihood_ratio 1 2.
Proof.
  apply (test_statistic_is_difference_of_fit_statistics 1 2); lra.
Defined.

(** ** Selecting models *)

Section Select.
Import Selection.

Lemma fold_and : forall (m : SkyModel) conds b,
  fold_left (fun b c => b && satisfies m c) conds b
  = b && forallb (satisfies m) conds.
Proof.
  intros m conds. induction conds as [|c conds IH]; intros b; simpl.
  - rewrite andb_true_r. reflexivity.
  - rewrite IH. rewrite andb_assoc. reflexivity.
Qed.

Lemma index_mask_map : forall (p : SkyModel -> bool) (ms : Models),
  index_mask ms (map p ms) = filter p ms.
Proof.
  intros p ms. induction ms as [|m ms IH]; simpl; [reflexivity|].
  rewrite IH. reflexivity.
Qed.

Lemma mask_or_map : forall (p q : SkyModel -> bool) (ms : Models),
  mask_or (map p ms) (map q ms) = map (fun m => p m || q m) ms.
Proof.
  intros p q ms. induction ms as [|m ms IH]; simpl; [reflexivity|].
  rewrite IH. reflexivity.
Qed.

Lemma selection_mask_all : forall (ms : Models) conds,
  selection_mask ms conds = map (fun m => forallb (satisfies m) conds) ms.
Proof.
  intros ms conds. unfold selection_mask. apply map_ext.
  intros m. rewrite fold_and. reflexivity.
Qed.

Lemma select_filter : forall (ms : Models) conds,
  select ms conds = filter (fun m => forallb (satisfies m) conds) ms.
Proof.
  intros ms conds. unfold select.
  rewrite selection_mask_all. apply index_mask_map.
Qed.

Lemma or_mask_filter : forall (ms : Models) c1 c2,
  index_mask ms (mask_or (selection_mask ms [c1]) (selection_mask ms [c2]))
  = filter (fun m => satisfies m c1 || satisfies m c2) ms.
Proof.
  intros ms c1 c2. rewrite !selection_mask_all, mask_or_map.
  rewrite index_mask_map. apply filter_ext.
  intros m. simpl. rewrite !andb_true_r. reflexivity.
Qed.

End Select.

(** C10. [Models.select] with a list of conditions returns exactly the
    models of the collection that satisfy every condition, in their order;
    indexing the collection with the entrywise disjunction of the masks of
    two conditions returns exactly the models that satisfy one of them. *)
Theorem select_is_and_and_mask_disjunction_is_or :
  forall (ms : Selection.Models),
    (forall conds,
       Selection.select ms conds
       = filter (fun m => forallb (Selection.satisfies m) conds) ms) /\
    (forall conds m,
       In m (Selection.select ms conds) <->
       In m ms /\ forall c, In c conds -> Selection.satisfies m c = true) /\
    (forall c1 c2,
       Selection.index_mask ms
         (Selection.mask_or (Selection.selection_mask ms [c1])
                            (Selection.selection_mask ms [c2]))
       = filter (fun m => Selection.satisfies m c1 || Selection.satisfies m c2)
                ms) /\
    (forall c1 c2 m,
       In m (Selection.index_mask ms
               (Selection.mask_or (Selection.selection_mask ms [c1])
                                  (Selection.selection_mask ms [c2]))) <->
       In m ms /\
       (Selection.satisfies m c1 = true \/ Selection.satisfies m c2 = true)).
Proof.
  intros ms. split; [|split; [|split]].
  - intros conds. apply select_filter.
  - intros conds m. rewrite select_filter, filter_In, forallb_forall.
    reflexivity.
  - intros c1 c2. apply or_mask_filter.
  - intros c1 c2 m. rewrite or_mask_filter, filter_In, orb_true_iff.
    reflexivity.
Qed.

(** The two selections of the notebook on a small collection. *)
Example selections_on_three_models :
  let a := {| Selection.name := "model-1748-a";
              Selection.datasets_names := None |} in
  let b := {| Selection.name := "model-1731";
              Selection.datasets_names := Some ["fermi_dataset"] |} in
  let c := {| Selection.name := "model-1748-b";
              Selection.datasets_names := Some ["fermi_dataset"] |} in
  Selection.select_and [a; b; c] "cta_dataset" "1748" = [a] /\
  Selection.select_or [a; b; c] "1748" "1731" = [a; b; c] /\
  Selection.select_or [a; b; c] "-a" "1731" = [a; b].
Proof. repeat split. Qed.

(** * Further properties of the samples *)

Lemma distinct_NoDup : forall l, distinct l = true -> NoDup l.
Proof.
  induction l as [|x l IH]; simpl; intros H; constructor.
  - apply andb_true_iff in H as [H _].
    intros Hin. apply negb_true_iff in H.
    assert (mem x l = true) as C.
    { apply existsb_exists. exists x. split; [exact Hin|apply String.eqb_refl]. }
    congruence.
  - apply andb_true_iff in H as [_ H]. apply IH, H.
Qed.

Lemma has_value_some : forall o,
  has_value o = true -> exists s, o = Some s /\ s <> EmptyString.
Proof.
  intros [s|] H; simpl in H; [|discriminate].
  exists s. split; [reflexivity|].
  intros E. subst s. discriminate.
Qed.

Lemma entries_checked :
  balanced false howto_rst = true /\
  distinct (entry_ids (entries howto_rst)) = true /\
  List.length (entry_ids (entries howto_rst))
    = List.length (entries howto_rst) /\
  forallb entry_ok (entries howto_rst) = true.
Proof. repeat split; decide_by_evaluation. Qed.

(** X1. The entries of the how-to page are well formed: headers and
    footers alternate, every entry has an identifier and a title, no two
    entries share an identifier, and every link of an entry is a relative
    path under [../tutorials/] to an [.html] page. *)
Theorem howto_entries_are_well_formed :
  balanced false howto_rst = true /\
  NoDup (entry_ids (entries howto_rst)) /\
  (forall e, In e (entries howto_rst) ->
     (exists i, e_id e = Some i /\ i <> EmptyString) /\
     (exists t, e_title e = Some t /\ t <> EmptyString) /\
     (forall l, e_link e = Some l ->
        String.prefix "../tutorials/" l = true /\
        ends_with ".html" (before_anchor l) = true)).
Proof.
  destruct entries_checked as [B [D [_ A]]].
  split; [exact B|]. split; [apply distinct_NoDup, D|].
  intros e He. pose proof (all_In _ _ _ A e He) as H.
  unfold entry_ok in H.
  apply andb_true_iff in H as [H L]. apply andb_true_iff in H as [I T].
  split; [apply has_value_some, I|]. split; [apply has_value_some, T|].
  intros l El. rewrite El in L. unfold is_tutorial_link in L.
  apply andb_true_iff in L. exact L.
Qed.

(** ** Files read and written *)

Lemma event_eqb_eq : forall a b, event_eqb a b = true -> a = b.
Proof.
  intros [ia pa ca] [ib pb cb] H. unfold event_eqb in H. simpl in H.
  apply andb_true_iff in H as [H C]. apply andb_true_iff in H as [I P].
  apply String.eqb_eq in C. apply String.eqb_eq in P. subst.
  destruct ia, ib; try discriminate; reflexivity.
Qed.

Lemma reads_follow_writes_sound : forall evs before,
  reads_follow_writes before evs = true ->
  forall pre ev post,
    evs = (pre ++ ev :: post)%list ->
    ev_io ev = Reads -> is_data_path (ev_path ev) = false ->
    In (written (ev_path ev) (ev_class ev)) (pre ++ before).
Proof.
  induction evs as [|e evs IH]; intros before H pre ev post E Hr Hd.
  - destruct pre; discriminate.
  - simpl in H. apply andb_true_iff in H as [Hhere Hrest].
    destruct pre as [|e' pre]; simpl in E; injection E as <- E.
    + rewrite Hr, Hd in Hhere. simpl in Hhere.
      apply existsb_exists in Hhere as [w [Hw Hq]].
      apply event_eqb_eq in Hq. subst w. exact Hw.
    + specialize (IH (e :: before) Hrest pre ev post E Hr Hd).
      apply in_app_iff in IH. simpl in IH |- *.
      rewrite in_app_iff. tauto.
Qed.

Lemma round_trips_checked : forall d,
  In d all_documents -> reads_follow_writes [] (doc_events d) = true.
Proof. per_document; decide_by_evaluation. Qed.

Lemma writes_overwrite : forall d,
  In d all_documents ->
  forallb (fun f => implb (is_write f) (overwrites f)) (facts d) = true.
Proof. per_document; decide_by_evaluation. Qed.

(** X2. In every document, a file outside the data directory is read only
    after the document wrote it, by an object of the same class
    ([Models.write] before [Models.read], [Datasets.write] before
    [Datasets.read]); and every [write] call passes [overwrite=True]. *)
Theorem local_files_are_written_before_read :
  forall d, In d all_documents ->
    (forall pre ev post,
       doc_events d = (pre ++ ev :: post)%list ->
       ev_io ev = Reads -> is_data_path (ev_path ev) = false ->
       In (written (ev_path ev) (ev_class ev)) pre) /\
    (forall f, In f (facts d) -> is_write f = true -> overwrites f = true).
Proof.
  intros d Hd. split.
  - intros pre ev post E Hr Hp.
    pose proof (reads_follow_writes_sound _ _ (round_trips_checked d Hd)
                  pre ev post E Hr Hp) as H.
    rewrite app_nil_r in H. exact H.
  - intros f Hf Hw.
    pose proof (all_In _ _ _ (writes_overwrite d Hd) f Hf) as H.
    simpl in H. rewrite Hw in H. exact H.
Qed.

Lemma local_files_are_written_before_read_in_modelling :
  (forall pre ev post,
     doc_events modelling = (pre ++ ev :: post)%list ->
     ev_io ev = Reads -> is_data_path (ev_path ev) = false ->
     In (written (ev_path ev) (ev_class ev)) pre) /\
  (forall f, In f (facts modelling) -> is_write f = true ->
     overwrites f = true).
Proof.
  apply (local_files_are_written_before_read modelling).
  rewrite all_documents_eq. simpl. auto.
Defined.

Lemma events_checked : forall d,
  In d all_documents -> forallb event_ok (doc_events d) = true.
Proof. per_document; decide_by_evaluation. Qed.

(** X3. The data directory is only read: in every document a path under
    [$GAMMAPY_DATA/] is never given to a [write] call, and every other path,
    so every path written, is a bare file name of the working directory. *)
Theorem data_directory_is_read_only :
  forall d ev, In d all_documents -> In ev (doc_events d) ->
    (is_data_path (ev_path ev) = true /\ ev_io ev = Reads) \/
    (is_data_path (ev_path ev) = false /\ contains "/" (ev_path ev) = false).
Proof.
  intros d ev Hd Hev.
  pose proof (all_In _ _ _ (events_checked d Hd) ev Hev) as H.
  unfold event_ok in H.
  destruct (ev_io ev) eqn:Eio.
  - apply orb_true_iff in H as [H|H].
    + left. split; [exact H|reflexivity].
    + apply negb_true_iff in H. right. split; [|exact H].
      destruct (is_data_path (ev_path ev)) eqn:Ed; [|reflexivity].
      unfold is_data_path in Ed. apply prefix_split in Ed as [r Er].
      assert (contains "/" (ev_path ev) = true) as C.
      { apply contains_spec. exists "$GAMMAPY_DATA", r. rewrite Er. reflexivity. }
      congruence.
  - apply negb_true_iff in H. right. split; [|exact H].
    destruct (is_data_path (ev_path ev)) eqn:Ed; [|reflexivity].
    unfold is_data_path in Ed. apply prefix_split in Ed as [r Er].
    assert (contains "/" (ev_path ev) = true) as C.
    { apply contains_spec. exists "$GAMMAPY_DATA", r. rewrite Er. reflexivity. }
    congruence.
Qed.

Lemma data_directory_is_read_only_at_models_file :
  (is_data_path "3fhl_models.yaml" = true /\ Writes = Reads) \/
  (is_data_path "3fhl_models.yaml" = false /\
   contains "/" "3fhl_models.yaml" = false).
Proof.
  apply (data_directory_is_read_only modelling (written "3fhl_models.yaml" "Models")).
  - rewrite all_documents_eq. simpl. auto.
  - vm_compute. repeat (first [left; reflexivity | right]).
Defined.

(** ** Reduction loops *)

Lemma threaded_tail : forall s steps,
  threaded (s :: steps) = true -> threaded steps = true.
Proof.
  intros s [|s' steps] H; [reflexivity|].
  simpl in H. apply andb_true_iff in H as [_ H]. exact H.
Qed.

Lemma threaded_adjacent : forall steps,
  threaded steps = true ->
  forall pre s1 s2 post,
    steps = (pre ++ s1 :: s2 :: post)%list -> input s2 = target s1.
Proof.
  induction steps as [|s steps IH]; intros H pre s1 s2 post E.
  - destruct pre; discriminate.
  - destruct pre as [|p pre]; simpl in E; injection E as <- E.
    + subst steps. simpl in H. apply andb_true_iff in H as [H _].
      apply String.eqb_eq. exact H.
    + apply (IH (threaded_tail _ _ H) pre s1 s2 post E).
Qed.

Lemma loops_checked : forall d,
  In d all_documents ->
  forallb (fun l => chain_ok (snd l)) (loops (facts d)) = true.
Proof. per_document; decide_by_evaluation. Qed.

(** X4. In every [for] loop that runs makers, the first step is run by a
    dataset maker, every later step takes as its input the dataset the step
    before it produced, and the last statement of the body (the stacking or
    the append) takes the result of the last step. *)
Theorem reduction_loops_thread_the_dataset :
  forall d l, In d all_documents -> In l (loops (facts d)) ->
    (forall pre s1 s2 post,
       run_steps (snd l) = (pre ++ s1 :: s2 :: post)%list ->
       input s2 = target s1) /\
    (forall s rest,
       run_steps (snd l) = s :: rest ->
       ends_with "DatasetMaker" (maker_class s) = true /\
       consumes_last (snd l) = true).
Proof.
  intros d l Hd Hl.
  pose proof (all_In _ _ _ (loops_checked d Hd) l Hl) as H.
  simpl in H. unfold chain_ok in H.
  destruct (run_steps (snd l)) as [|s0 rest0] eqn:E.
  - split.
    + intros pre s1 s2 post E'. destruct pre; discriminate.
    + intros s rest E'. discriminate.
  - apply andb_true_iff in H as [H C]. apply andb_true_iff in H as [M T].
    split.
    + apply threaded_adjacent. exact T.
    + intros s rest E'. injection E' as <- _. split; assumption.
Qed.

Lemma reduction_loops_thread_the_dataset_in_makers :
  (forall pre s1 s2 post,
     run_steps (snd (nth 0 (loops (facts makers)) (no_fact, [])))
       = (pre ++ s1 :: s2 :: post)%list ->
     input s2 = target s1) /\
  (forall s rest,
     run_steps (snd (nth 0 (loops (facts makers)) (no_fact, []))) = s :: rest ->
     ends_with "DatasetMaker" (maker_class s) = true /\
     consumes_last (snd (nth 0 (loops (facts makers)) (no_fact, []))) = true).
Proof.
  apply (reduction_loops_thread_the_dataset makers).
  - rewrite all_documents_eq. simpl. auto.
  - apply nth_In. vm_compute. lia.
Defined.

(** ** Imports *)




(** ** Fits *)








